(* ===== verification/_CoqProject ===== *)
-Q . S2P
Prelude.v
JsString.v
Types.v
Constants.v
Assistant.v
GeminiService.v
Editor.v
Sidebar.v
AssistantPanel.v
App.v
Page.v
Refinement.v
Scenarios.v
