(* ===== verification/Prelude.v ===== *)
(** * DevExplorer: a verification development

    The program (src/) is a browser tool, "DevExplorer", in TypeScript and
    React.  The user picks one of three file types (TS, TSX, JSON), sees a
    canned code sample with line numbers, and chats with a hosted language
    model that explains the file type or regenerates the sample.

    ** Parts of the program and how they interact

    - [src/types.ts]: the [FileType] enum, the [FileTypeInfo] record and the
      chat [Message] record.  Modelled in [Types.v].
    - [src/constants.ts]: [FILE_INFO], a total table from [FileType] to its
      [FileTypeInfo].  Modelled in [Constants.v], every literal byte for
      byte.
    - [src/services/geminiService.ts]: the assistant client: a lazily
      created singleton client ([getAIClient]) and two operations
      [explainConcept] and [generateExample] that never reject, every
      failure being caught and folded into a sentinel string.  Modelled in
      [GeminiService.v] in a state, exception and console-log monad [M] of
      its own; the remote API (the constructor [new GoogleGenAI] and
      [models.generateContent]) and [process.env.API_KEY] form a record
      [Platform] that every theorem quantifies over.
    - [src/components/AssistantPanel.tsx]: the chat panel: transcript,
      text box and loading flag; the effect that reseeds the transcript
      when the type changes; the handlers [handleSend] and
      [handleGenerateExample], asynchronous, each split into its
      synchronous prefix (up to the [await]) and its continuation.
      Modelled in [AssistantPanel.v].
    - [src/App.tsx]: the root component: active type, displayed code and
      sidebar flag, with the effect that resets the code when the type
      changes.  Modelled in [App.v], which also composes App and the panel
      into one system: [Sys] (App's state, the panel's state, the list of
      requests whose promise has not settled, the service's state) and
      [step] over [Event]s, the user's actions and the settlement of any
      outstanding promise, so that every interleaving is a list of events
      ([run]) and [reachable] is the inductive set of states reachable
      from the mounted page ([init]).
    - [src/components/Editor.tsx], [src/components/Sidebar.tsx]: stateless
      views.  [Editor.Editor] and [Sidebar.Sidebar] return a record of what
      they render: the tab label, the rows numbered from [code.split('\n')]
      and the status bar; the texts and, per item, a button with its key,
      the type its click selects, its class chosen by [isActive] and its
      label.  Markup and class names that no condition selects are left
      out.
    - The rendering of the panel ([AssistantPanel.AssistantPanel]) and of
      the whole page ([Page.Page], from a state [Sys] of [App.v]) are
      records in the same style: icons, texts, disabled attributes and the
      classes the code chooses.

    The panel reaches the service through an interface, the class
    [Assistant.AssistantService] (a state of the service's own, the world
    of one call, and the two operations as settled promises) with the law
    [Assistant.AssistantNoReject] (neither operation rejects).  [App.v]
    is proved against the class, in a Section whose [Context] is the
    service; [GeminiService.GeminiAssistant] is an instance and
    [GeminiService.GeminiNoReject] discharges the law.  [Scenarios.v]
    states what a settlement does after the page moved on, for every
    service, and what the Gemini service's failures and empty answers
    do to the page.

    ** Files, in dependency order

    [Prelude.v] (this file: the [devx] scope, hint and rewrite databases,
    shared tactics, lemmas on strings and lists), [JsString.v] (the
    JavaScript string operations the source calls: [trim], [split],
    [toLowerCase], [includes], [||] on strings, with their
    specifications), [Types.v], [Constants.v], [Assistant.v],
    [GeminiService.v], [Editor.v], [Sidebar.v], [AssistantPanel.v],
    [App.v], [Page.v]
    (the rendered page), [Refinement.v] (the specification's atomic
    controller, its refinement by sequential runs and a forward simulation
    of interleaved runs), [Scenarios.v].

    ** Modelling choices

    - A JavaScript string is a Rocq [string] of ASCII characters; [trim]'s
      whitespace set is restricted to its ASCII members (tab, line feed,
      vertical tab, form feed, carriage return, space).
    - A double quote cannot be written inside a Rocq string literal without
      doubling it, so the source literals that contain one are written
      with [^] in its place and passed through [JsString.lit]; the
      source's literals contain no [^], so [lit] is exact on them.
    - [undefined] is [None] where a value can be missing
      ([process.env.API_KEY], [response.text]); an error value is a string.
    - React: a setter that stores the value already there does not
      re-render; an effect runs after a commit when a dependency changed
      and once on mount.  Functional setters ([prev => ...]) act on the
      state current when the promise settles.  Each user event is
      processed on the committed state (React flushes discrete events).
    - A service call is run when its promise settles: its synchronous
      prefix ([getAIClient]) touches only the service's own state, which
      no component reads, so the order is not observable in the UI state.
    - No fuel or bound is needed.  The source has no loop other than
      [map], [split] and the event loop of the browser; every Rocq
      function here is structurally recursive (on strings, lists, or the
      event list of [run]), so each terminates by construction.  No
      machine integer is computed: [innerWidth] is compared with 1024 and
      line numbers are [i + 1], so [nat] is exact.

    ** What is proved (PROJECT.json lists the claims C1-C35)

    - App: the invariant (loading flag set exactly when a request is
      outstanding, at most one outstanding, transcript headed by the
      greeting of the active type, which mentions its extension) holds in
      every reachable state, by rule induction; the transcript is
      append-only between type changes; the page always returns to idle
      after one settlement; the behaviour of a type switch, of the busy
      and blank-input guards; with any service satisfying the no-reject
      law, a settlement appends the service's text or replaces the code.
    - Refinement: the specification's controller (section 4.3: atomic
      select, toggle, send-and-reply, request-and-replace) is refined by
      the page: from an idle state, the events implementing any sequence
      of abstract operations end idle in the abstract run's state,
      provided no operation selects the already active type.  Beyond
      sequential runs, a forward simulation ([Refinement.sim],
      [Refinement.view]) shows that every interleaving of user events
      with a settlement is matched by at most one abstract operation per
      event, as long as no type switch happens while a request is
      outstanding (the stale cases are the findings of [Scenarios.v]).
    - Page: in every reachable state the rendered page is consistent:
      header, tab and greeting name the same extension, one button is
      highlighted, menu icon, overlay and slide class follow the sidebar
      flag, and spinner, typing indicator and disabled buttons show
      exactly while a request is outstanding.  The send controls follow
      the rendered [disabled] attribute on the Enter key as on the click;
      a click on a rendered sidebar button highlights exactly that
      button; a question and its answer add exactly a user bubble and an
      assistant bubble, with the typing indicator shown in between.
      Editor: the rows are exactly the numbered lines, every number
      between 1 and the number of lines (bounds).
    - GeminiService: neither operation rejects, on every platform; their
      results on each branch, each conditioned on the platform's outcome
      (answer, failed call, failed client) with the exact console; the client is a singleton and the
      missing-key warning is logged once; the prompts embed their inputs.
    - AssistantPanel: each handler on each branch.  Constants: the table
      is total and well formed.  Editor: the rows show the code exactly
      (split/join round trip) and are numbered from 1.  Sidebar: every
      type listed once, exactly one active.
    - Scenarios, the general form of the findings: for every state and
      service, a reply or example that settles after a type switch lands
      in the new type's transcript or editor; with the Gemini service, a
      failed example overwrites the code and is announced as a new
      example, and an empty answer becomes the "Sorry" sentence or an
      empty editor.

    ** Not modelled

    Class names that no condition selects, layout and the Markdown
    renderer (pure presentation; the text handed to the renderer is
    kept); the component icons of the sidebar items; the auto-scroll
    effect ([scrollRef], DOM only); [console.error] in the
    panel's generate [catch]; the network itself (the [Platform]
    parameter); Unicode whitespace in [trim].

    ** Plan for the next sittings

    1. The service's synchronous prefix run at call time (splitting
       [explainConcept] at its [await]) with an equivalence theorem to
       the atomic model used here.
    2. The control wiring of the page: each control of [Page.Page] and
       the [Event] its handler dispatches, with the theorem that a
       disabled control's event leaves the state unchanged.
*)


From Stdlib Require Import String Ascii.
From stdpp Require Import base list strings.

Declare Scope devx_scope.
Delimit Scope devx_scope with devx.

Create HintDb devx.
Create Rewrite HintDb devx.

Open Scope devx_scope.

(** ** Generic lemmas on strings

    stdpp writes string append [a +:+ b] and makes it [simpl never]; the
    two computation rules are therefore lemmas of the database. *)

Lemma string_app_nil_l (b : string) : (EmptyString +:+ b) = b.
Proof. reflexivity. Qed.

Lemma string_app_cons (c : ascii) (a b : string) :
  (String c a +:+ b) = String c (a +:+ b).
Proof. reflexivity. Qed.

#[export] Hint Rewrite string_app_nil_l string_app_cons : devx.

Lemma string_app_nil_r (s : string) : (s +:+ EmptyString) = s.
Proof. induction s as [|c s IH]; rewrite ?string_app_cons; [done | by rewrite IH]. Qed.

Lemma string_app_assoc (a b c : string) :
  ((a +:+ b) +:+ c) = (a +:+ (b +:+ c)).
Proof. induction a as [|x a IH]; rewrite ?string_app_cons; [done | by rewrite IH]. Qed.

Lemma string_length_app (a b : string) :
  String.length (a +:+ b) = String.length a + String.length b.
Proof. induction a as [|x a IH]; rewrite ?string_app_cons; simpl; [done | by rewrite IH]. Qed.

Lemma string_app_nonempty_l (a b : string) :
  a <> EmptyString -> (a +:+ b) <> EmptyString.
Proof. destruct a; rewrite ?string_app_cons; congruence. Qed.

#[export] Hint Rewrite string_app_nil_r string_app_assoc string_length_app : devx.
#[export] Hint Resolve string_app_nonempty_l : devx.

(** ** Generic lemmas on lists *)

Lemma head_app_Some {A} (l m : list A) x : head l = Some x -> head (l ++ m) = Some x.
Proof. by destruct l. Qed.

(** A list of length at most one with an element at [i] is that element
    alone, at index 0. *)
Lemma lookup_short_list {A} (l : list A) i x :
  length l <= 1 -> l !! i = Some x -> l = [x] /\ i = 0.
Proof.
  intros Hl Hi. destruct l as [|y [|z l]]; simpl in *.
  - done.
  - destruct i; simpl in Hi; [by simplify_eq | by rewrite lookup_nil in Hi].
  - lia.
Qed.

#[export] Hint Resolve head_app_Some : devx.
