(* ===== verification/JsString.v ===== *)
(** * JavaScript string operations used by the source

    The source calls [String.prototype.trim] (AssistantPanel.tsx, the send
    guard), [String.prototype.split("\n")] (Editor.tsx, the line display),
    [toLowerCase] and [includes] (AssistantPanel.tsx, the icon of each
    program), and [||] on strings (geminiService.ts, the fallbacks).  Each
    is defined here over Rocq's ASCII [string] as ECMAScript specifies it,
    with the lemmas that the components' theorems use. *)

From Stdlib Require Import String Ascii.
From stdpp Require Import base list strings.
From S2P Require Import Prelude.

Open Scope devx_scope.

(** ** Characters *)

Definition char_eqb (a b : ascii) : bool := Ascii.eqb a b.

Lemma char_eqb_spec a b : char_eqb a b = true <-> a = b.
Proof. apply Ascii.eqb_eq. Qed.

Definition newline : ascii := "010".
Definition double_quote : ascii := "034".
Definition caret : ascii := "^".

(** [lit s]: a source literal written with [^] in place of each double
    quote (see the root file's conventions). *)
Fixpoint lit (s : string) : string :=
  match s with
  | EmptyString => EmptyString
  | String c r => String (if char_eqb c caret then double_quote else c) (lit r)
  end.

(** ** Truthiness and [||] on strings *)

(** A string is truthy in JavaScript exactly when it is not empty. *)
Definition truthy (s : string) : bool :=
  match s with EmptyString => false | String _ _ => true end.

(** [a || b] on two strings. *)
Definition js_or (a b : string) : string := if truthy a then a else b.

(** [a || b] where [a : string | undefined] ([None] is undefined). *)
Definition js_or_opt (a : option string) (b : string) : string :=
  match a with Some s => js_or s b | None => b end.

Lemma js_or_opt_cases a b :
  (exists s, a = Some s /\ truthy s = true /\ js_or_opt a b = s)
  \/ js_or_opt a b = b.
Proof.
  destruct a as [s|]; simpl; [|by right].
  unfold js_or. destruct (truthy s) eqn:E; [left; eauto | by right].
Qed.

(** ** [trim] *)

(** The WhiteSpace and LineTerminator characters of ECMAScript that are
    ASCII: tab, line feed, vertical tab, form feed, carriage return and
    space. *)
Definition is_ws (c : ascii) : bool :=
  match nat_of_ascii c with
  | 9 | 10 | 11 | 12 | 13 | 32 => true
  | _ => false
  end.

Fixpoint trimStart (s : string) : string :=
  match s with
  | EmptyString => EmptyString
  | String c r => if is_ws c then trimStart r else s
  end.

Fixpoint trimEnd (s : string) : string :=
  match s with
  | EmptyString => EmptyString
  | String c r =>
      let r' := trimEnd r in
      if is_ws c && negb (truthy r') then EmptyString else String c r'
  end.

(** [s.trim()]: TrimString(s, start+end). *)
Definition trim (s : string) : string := trimEnd (trimStart s).

(** Every character is whitespace. *)
Fixpoint all_ws (s : string) : bool :=
  match s with
  | EmptyString => true
  | String c r => is_ws c && all_ws r
  end.

Lemma trimEnd_empty_iff s : trimEnd s = EmptyString <-> all_ws s = true.
Proof.
  induction s as [|c r IH]; simpl; [done|].
  destruct (is_ws c), (trimEnd r); simpl; split; intros H;
    try done; try apply IH; try (apply IH in H); congruence.
Qed.

Lemma trimStart_empty_iff s : trimStart s = EmptyString <-> all_ws s = true.
Proof.
  induction s as [|c r IH]; simpl; [done|].
  destruct (is_ws c); simpl; [done | split; congruence].
Qed.

Lemma all_ws_trimStart s : all_ws (trimStart s) = all_ws s.
Proof.
  induction s as [|c r IH]; simpl; [done|].
  destruct (is_ws c) eqn:E; simpl; rewrite ?E; done.
Qed.

(** [s.trim()] is empty exactly when [s] is whitespace only. *)
Lemma trim_empty_iff s : trim s = EmptyString <-> all_ws s = true.
Proof. unfold trim. by rewrite trimEnd_empty_iff, all_ws_trimStart. Qed.

(** The send guard's [!s.trim()], as a boolean. *)
Lemma truthy_trim s : truthy (trim s) = negb (all_ws s).
Proof.
  destruct (all_ws s) eqn:E; simpl.
  - by apply trim_empty_iff in E as ->.
  - destruct (trim s) eqn:T; [|done].
    apply trim_empty_iff in T. congruence.
Qed.

(** ** [split] and its inverse [join] *)

Section Split.
Variable sep : ascii.

(** [s.split(sep)] for a one-character separator: the pieces between
    separators, always at least one piece (the empty string splits
    into one empty piece). *)
Fixpoint split_on (s : string) : list string :=
  match s with
  | EmptyString => [EmptyString]
  | String c r =>
      let rest := split_on r in
      if char_eqb c sep then EmptyString :: rest
      else match rest with
           | [] => [String c EmptyString]
           | h :: t => String c h :: t
           end
  end.

(** [l.join(sep)]. *)
Fixpoint join (l : list string) : string :=
  match l with
  | [] => EmptyString
  | [x] => x
  | x :: t => x +:+ String sep (join t)
  end.

(** The number of occurrences of [sep]. *)
Fixpoint count_sep (s : string) : nat :=
  match s with
  | EmptyString => 0
  | String c r => (if char_eqb c sep then 1 else 0) + count_sep r
  end.

Lemma split_on_nonempty s : split_on s <> [].
Proof.
  destruct s as [|c r]; simpl; [done|].
  destruct (char_eqb c sep); [done|]. by destruct (split_on r).
Qed.

Lemma join_cons_cons x y t : join (x :: y :: t) = x +:+ String sep (join (y :: t)).
Proof. reflexivity. Qed.

Lemma join_cons_char c h t : join (String c h :: t) = String c (join (h :: t)).
Proof. by destruct t. Qed.

(** [split] followed by [join] gives the string back. *)
Lemma join_split_on s : join (split_on s) = s.
Proof.
  induction s as [|c r IH]; [done|]. simpl.
  destruct (char_eqb c sep) eqn:E.
  - apply char_eqb_spec in E as ->.
    destruct (split_on r) as [|h t] eqn:Hs; [by apply split_on_nonempty in Hs|].
    rewrite join_cons_cons, <- IH. done.
  - destruct (split_on r) as [|h t] eqn:Hs; [by apply split_on_nonempty in Hs|].
    by rewrite join_cons_char, IH.
Qed.

Lemma length_split_on s : length (split_on s) = S (count_sep s).
Proof.
  induction s as [|c r IH]; [done|]. simpl.
  destruct (char_eqb c sep); simpl; [by rewrite IH|].
  destruct (split_on r) eqn:Hs; [by apply split_on_nonempty in Hs|].
  simpl in *. lia.
Qed.

Lemma split_on_no_sep x : count_sep x = 0 -> split_on x = [x].
Proof.
  induction x as [|c r IH]; [done|]. simpl.
  destruct (char_eqb c sep); [done|]. simpl. intros H. by rewrite IH.
Qed.

Lemma split_on_app_sep x r :
  count_sep x = 0 -> split_on (x +:+ String sep r) = x :: split_on r.
Proof.
  induction x as [|c x IH]; intros H; autorewrite with devx; simpl.
  - by rewrite (proj2 (char_eqb_spec sep sep) eq_refl).
  - simpl in H. destruct (char_eqb c sep); [done|]. simpl in H. by rewrite IH.
Qed.

(** [join] followed by [split] gives the list back, when no piece
    contains the separator and the list is not empty. *)
Lemma split_on_join l :
  l <> [] -> Forall (fun x => count_sep x = 0) l -> split_on (join l) = l.
Proof.
  induction l as [|x [|y t] IH]; intros Hne Hall; [done| |].
  - inversion Hall; subst. by apply split_on_no_sep.
  - inversion Hall; subst. rewrite join_cons_cons, split_on_app_sep by done.
    by rewrite IH.
Qed.

Lemma split_on_pieces s : Forall (fun x => count_sep x = 0) (split_on s).
Proof.
  induction s as [|c r IH]; simpl; [by repeat constructor|].
  destruct (char_eqb c sep) eqn:E; [by constructor|].
  destruct (split_on r) as [|h t]; [by repeat constructor; simpl; rewrite E|].
  inversion IH; subst. constructor; [|done]. simpl. by rewrite E.
Qed.
End Split.

(** ** [includes] *)

Fixpoint starts_with (p s : string) : bool :=
  match p, s with
  | EmptyString, _ => true
  | String a p', String b s' => char_eqb a b && starts_with p' s'
  | _, _ => false
  end.

(** [s.includes(p)]: [p] occurs in [s] at some position. *)
Fixpoint includes (s p : string) : bool :=
  starts_with p s ||
  match s with EmptyString => false | String _ r => includes r p end.

Lemma starts_with_spec p s : starts_with p s = true <-> exists b, s = p +:+ b.
Proof.
  revert s; induction p as [|a p IH]; intros s.
  - split; [by exists s | done].
  - destruct s as [|b s]; simpl.
    + split; [done|]. by intros [? ?].
    + rewrite andb_true_iff, char_eqb_spec, IH. split.
      * intros [-> [x ->]]. by exists x.
      * intros [x Hx]. rewrite string_app_cons in Hx. injection Hx as -> ->. eauto.
Qed.

Lemma includes_spec s p : includes s p = true <-> exists a b, s = a +:+ p +:+ b.
Proof.
  induction s as [|c r IH]; simpl; rewrite orb_true_iff, starts_with_spec.
  - split.
    + intros [[b Hb] | Hf]; [by exists EmptyString, b | done].
    + intros [[|? ?] [b Hb]]; [left; by exists b|]. by rewrite string_app_cons in Hb.
  - rewrite IH. split.
    + intros [[b Hb] | [a [b Hab]]]; [by exists EmptyString, b|].
      exists (String c a), b. by rewrite string_app_cons, Hab.
    + intros [[|x a] [b Hab]]; [left; by exists b|].
      rewrite string_app_cons in Hab. injection Hab as -> ->. right. eauto.
Qed.

(** ** [toLowerCase] on ASCII *)

Definition lower_char (c : ascii) : ascii :=
  let n := nat_of_ascii c in
  if (65 <=? n) && (n <=? 90) then ascii_of_nat (n + 32) else c.

Fixpoint toLowerCase (s : string) : string :=
  match s with
  | EmptyString => EmptyString
  | String c r => String (lower_char c) (toLowerCase r)
  end.

Lemma toLowerCase_app a b : toLowerCase (a +:+ b) = toLowerCase a +:+ toLowerCase b.
Proof. induction a as [|c a IH]; [done|]. rewrite !string_app_cons. simpl. by rewrite IH. Qed.

(** Lower-casing preserves an occurrence of [p] in [s]. *)
Lemma includes_toLowerCase s p :
  includes s p = true -> includes (toLowerCase s) (toLowerCase p) = true.
Proof.
  rewrite !includes_spec. intros [a [b ->]].
  exists (toLowerCase a), (toLowerCase b). by rewrite !toLowerCase_app.
Qed.

Lemma includes_prefix p b : includes (p +:+ b) p = true.
Proof. apply includes_spec. by exists EmptyString, b. Qed.

Lemma includes_app_l a s p : includes s p = true -> includes (a +:+ s) p = true.
Proof.
  rewrite !includes_spec. intros (x & y & ->).
  exists (a +:+ x), y. by rewrite string_app_assoc.
Qed.

Lemma includes_cons c s p : includes s p = true -> includes (String c s) p = true.
Proof. intros H. simpl. by rewrite H, orb_true_r. Qed.

(** Find an occurrence of [p] in a right-nested concatenation that has
    [p] as one of its pieces. *)
Ltac solve_includes :=
  repeat first [ apply includes_prefix | apply includes_app_l | apply includes_cons ].
