(* ===== verification/Types.v ===== *)
(** * The data types of [src/types.ts]

    [FileType] is the closed enum of three file types, with decidable
    equality and a [Finite] instance (its [enum] is the list of its
    members, which the sidebar's completeness theorem uses); [FileType_value]
    gives the enum's string values, which the service's prompts embed.
    [FileTypeInfo] and [Message] are the source's interfaces as records. *)

From Stdlib Require Import String.
From stdpp Require Import base list strings finite sets.
From S2P Require Import Prelude.

(** [export enum FileType { TS = 'TS', TSX = 'TSX', JSON = 'JSON' }] *)
Inductive FileType := TS | TSX | JSON.

#[export] Instance FileType_eq_dec : EqDecision FileType.
Proof. solve_decision. Defined.

#[export] Program Instance FileType_finite : Finite FileType :=
  {| enum := [TS; TSX; JSON] |}.
Next Obligation. repeat (constructor; [set_solver|]); constructor. Qed.
Next Obligation. intros []; set_solver. Qed.

(** The string value of each member ([${fileType}] in a template). *)
Definition FileType_value (t : FileType) : string :=
  match t with
  | TS => "TS"
  | TSX => "TSX"
  | JSON => "JSON"
  end.

(** [interface FileTypeInfo] *)
Record FileTypeInfo := {
  extension : string;
  fullName : string;
  description : string;
  howToOpen : list string;
  defaultCode : string;
  icon : string
}.

(** [role: 'user' | 'model'] *)
Inductive Role := user | model.

#[export] Instance Role_eq_dec : EqDecision Role.
Proof. solve_decision. Defined.

(** [interface Message] *)
Record Message := {
  role : Role;
  text : string
}.

#[export] Instance Message_eq_dec : EqDecision Message.
Proof.
  intros [r1 t1] [r2 t2].
  destruct (decide (r1 = r2)) as [->|]; [|right; congruence].
  destruct (decide (t1 = t2)) as [->|]; [by left | right; congruence].
Defined.

Lemma FileType_value_inj t1 t2 : FileType_value t1 = FileType_value t2 -> t1 = t2.
Proof. destruct t1, t2; simpl; congruence. Qed.
