(* ===== verification/Constants.v ===== *)
(** * The file-type catalog of [src/constants.ts]

    [FILE_INFO : Record<FileType, FileTypeInfo>] is an object literal with
    one key per member of the enum, so it is a total function from
    [FileType]; each default sample is the template literal's value (its
    [\`] and [\$] escapes resolved), written with [^] for a double quote
    and passed through [lit]. *)

From Stdlib Require Import String.
From stdpp Require Import base list strings.
From S2P Require Import Prelude JsString Types.

Open Scope string_scope.

Definition TS_defaultCode : string := lit "// interface defining the shape of a User object
interface User {
  id: number;
  name: string;
  isAdmin: boolean;
}

function greet(user: User): string {
  return `Hello, ${user.name}!`;
}

const admin: User = {
  id: 1,
  name: ^Alice^,
  isAdmin: true
};

console.log(greet(admin));".

Definition TSX_defaultCode : string := lit "import React, { useState } from 'react';

interface ButtonProps {
  label: string;
  onClick: () => void;
}

export const CustomButton: React.FC<ButtonProps> = ({ label, onClick }) => {
  const [count, setCount] = useState<number>(0);

  return (
    <button 
      className=^bg-blue-500 text-white px-4 py-2 rounded^
      onClick={() => {
        setCount(c => c + 1);
        onClick();
      }}
    >
      {label} ({count})
    </button>
  );
};".

Definition JSON_defaultCode : string := lit "{
  ^project^: ^Demo App^,
  ^version^: ^1.0.0^,
  ^settings^: {
    ^theme^: ^dark^,
    ^notifications^: true,
    ^retryAttempts^: 3
  },
  ^contributors^: [
    { ^name^: ^John^, ^role^: ^Developer^ },
    { ^name^: ^Jane^, ^role^: ^Designer^ }
  ]
}".

(** [FILE_INFO[t]] *)
Definition FILE_INFO (t : FileType) : FileTypeInfo :=
  match t with
  | TS => {|
      extension := ".ts";
      fullName := "TypeScript File";
      description := "A TypeScript file contains code written in TypeScript, a strict syntactical superset of JavaScript that adds optional static typing.";
      howToOpen := [ "Visual Studio Code (Recommended)"; "WebStorm"; "Sublime Text"; "Atom" ];
      icon := "typescript";
      defaultCode := TS_defaultCode |}
  | TSX => {|
      extension := ".tsx";
      fullName := "TypeScript JSX File";
      description := "A TSX file is a TypeScript file that contains JSX syntax, commonly used with React to describe what the UI should look like.";
      howToOpen := [ "Visual Studio Code (Recommended)"; "WebStorm"; "IntelliJ IDEA"; "Vim (with plugins)" ];
      icon := "react";
      defaultCode := TSX_defaultCode |}
  | JSON => {|
      extension := ".json";
      fullName := "JavaScript Object Notation";
      description := "JSON is a lightweight data-interchange format. It is easy for humans to read and write and easy for machines to parse and generate.";
      howToOpen := [ "Visual Studio Code"; "Any Web Browser (Chrome, Firefox)"; "Notepad / TextEdit"; "Online JSON Viewers" ];
      icon := "json";
      defaultCode := JSON_defaultCode |}
  end.

(** *** Theorems *)

(** C4: for every file type the catalog's entry has a non-empty extension,
    a non-empty default sample and at least one program to open it, and
    its extension is "." followed by the lower-cased enum value. *)
Theorem FILE_INFO_wf (t : FileType) :
  extension (FILE_INFO t) <> EmptyString /\
  defaultCode (FILE_INFO t) <> EmptyString /\
  howToOpen (FILE_INFO t) <> [] /\
  extension (FILE_INFO t) = "." +:+ toLowerCase (FileType_value t).
Proof. destruct t; vm_compute; repeat split; congruence. Qed.

(** Distinct file types have distinct extensions, so the extension the
    greeting shows identifies the active type. *)
Lemma FILE_INFO_extension_inj t1 t2 :
  extension (FILE_INFO t1) = extension (FILE_INFO t2) -> t1 = t2.
Proof. destruct t1, t2; vm_compute; congruence. Qed.
