(* ===== verification/Assistant.v ===== *)
(** * The interface between the chat panel and the assistant service

    [AssistantPanel.tsx] imports [explainConcept] and [generateExample] and
    awaits them.  What the panel relies on is stated here as a class: a
    service has a state of its own and, for each call, the world it runs
    in (the answers of the network); each operation settles its promise,
    resolved with a string or rejected with an error.  [AssistantNoReject]
    is the law the Gemini service satisfies: neither operation ever
    rejects.  The panel's theorems are proved against these classes and
    the Gemini service is an instance ([GeminiService.v]). *)

From Stdlib Require Import String.
From stdpp Require Import base.
From S2P Require Import Prelude Types.

(** A JavaScript error value, as far as the code uses it: it is logged
    and otherwise dropped. *)
Definition Exn := string.

(** A settled promise. *)
Inductive Settled (A : Type) :=
| Resolved (a : A)
| Rejected (e : Exn).
Arguments Resolved {A} a.
Arguments Rejected {A} e.

Class AssistantService := {
  svc_state : Type;
  svc_world : Type;
  (** [explainConcept(fileType, query)] *)
  svc_explain : svc_world -> FileType -> string -> svc_state -> Settled string * svc_state;
  (** [generateExample(fileType, topic)] *)
  svc_generate : svc_world -> FileType -> string -> svc_state -> Settled string * svc_state
}.

Class AssistantNoReject (S : AssistantService) := {
  svc_explain_resolves : forall w t q s, exists r s', svc_explain w t q s = (Resolved r, s');
  svc_generate_resolves : forall w t q s, exists r s', svc_generate w t q s = (Resolved r, s')
}.
