(* ===== verification/GeminiService.v ===== *)
(** * The assistant client of [src/services/geminiService.ts]

    The module keeps one piece of state, the lazily created client
    [genAI : GoogleGenAI | null], and writes to the console.  Its code
    runs in a monad [M] of this file: a state ([SvcState]: the client and
    the console log) with exceptions (a [Settled] result), so that
    [try { ... } catch (error) { ... }] is [try_catch].  The world a call
    runs in is a [Platform]: the value of [process.env.API_KEY], the
    constructor [new GoogleGenAI({ apiKey })] and the remote call
    [ai.models.generateContent({ model, contents })], each of which may
    throw.  The theorems quantify over every platform. *)

From Stdlib Require Import String.
From stdpp Require Import base list strings.
From S2P Require Import Prelude JsString Types Assistant.

Open Scope string_scope.

(** ** Data *)

(** A [GoogleGenAI] client, as constructed from its options. *)
Record Client := { client_apiKey : string }.

(** The response of [generateContent]; its [text] getter may be
    undefined. *)
Record Response := { response_text : option string }.

Inductive LogEntry :=
| Warn (msg : string)                 (** [console.warn(msg)] *)
| ErrorLog (msg : string) (e : Exn).  (** [console.error(msg, e)] *)

Record SvcState := {
  genAI : option Client;
  console : list LogEntry
}.

Record Platform := {
  process_env_API_KEY : option string;
  new_GoogleGenAI : string -> Settled Client;
  generateContent : Client -> string -> string -> Settled Response
}.

(** ** The monad *)

Definition M (A : Type) := SvcState -> Settled A * SvcState.

Definition ret {A} (a : A) : M A := fun s => (Resolved a, s).

Definition bind {A B} (c : M A) (k : A -> M B) : M B := fun s =>
  match c s with
  | (Resolved a, s') => k a s'
  | (Rejected e, s') => (Rejected e, s')
  end.

(** Await a settled value: resolve with it or rethrow. *)
Definition lift {A} (r : Settled A) : M A := fun s => (r, s).

(** [try { c } catch (e) { h(e) }] *)
Definition try_catch {A} (c : M A) (h : Exn -> M A) : M A := fun s =>
  match c s with
  | (Resolved a, s') => (Resolved a, s')
  | (Rejected e, s') => h e s'
  end.

Definition log (l : LogEntry) : M unit := fun s =>
  (Resolved tt, {| genAI := genAI s; console := console s ++ [l] |}).

Definition get_genAI : M (option Client) := fun s => (Resolved (genAI s), s).

Definition set_genAI (c : Client) : M unit := fun s =>
  (Resolved tt, {| genAI := Some c; console := console s |}).

Declare Scope svc_scope.
Delimit Scope svc_scope with svc.
Notation "x <- c ;; k" := (bind c (fun x => k))
  (at level 100, c at next level, right associativity) : svc_scope.
Notation "c ;; k" := (bind c (fun _ => k))
  (at level 100, right associativity) : svc_scope.
Open Scope svc_scope.

(** ** Operations *)

Definition missing_key_warning : string := "API Key not found in process.env.API_KEY".
Definition gemini_model : string := "gemini-2.5-flash".

(** [getAIClient] (lines 6-15). *)
Definition getAIClient (P : Platform) : M Client :=
  g <- get_genAI ;;
  match g with
  | Some c => ret c
  | None =>
      let apiKey := js_or_opt (process_env_API_KEY P) EmptyString in
      (if negb (truthy apiKey) then log (Warn missing_key_warning) else ret tt) ;;
      c <- lift (new_GoogleGenAI P apiKey) ;;
      set_genAI c ;;
      ret c
  end.

(** The template literal of [explainConcept] (lines 20-30), with
    [fileType] already converted to its string value. *)
Definition explain_prompt (fileType query : string) : string :=
  "
      You are an expert developer assistant.
      The user is asking about " +:+ fileType +:+ " files.
      
      User Query: " +:+ String double_quote (query +:+ String double_quote "
      
      Provide a concise, helpful, and beginner-friendly explanation. 
      If asking how to open, list specific software. 
      If asking about code, briefly explain the syntax.
      Format the response with Markdown.
    ").

Definition explain_empty_fallback : string :=
  "Sorry, I couldn't generate an explanation at this time.".
Definition explain_error_text : string :=
  "An error occurred while communicating with the AI. Please check your API key.".
Definition api_error_label : string := "Gemini API Error:".

(** [explainConcept] (lines 17-42). *)
Definition explainConcept (P : Platform) (fileType : FileType) (query : string) : M string :=
  try_catch
    (ai <- getAIClient P ;;
     let prompt := explain_prompt (FileType_value fileType) query in
     response <- lift (generateContent P ai gemini_model prompt) ;;
     ret (js_or_opt (response_text response) explain_empty_fallback))
    (fun error =>
       log (ErrorLog api_error_label error) ;;
       ret explain_error_text).

(** The template literal of [generateExample] (lines 47-52). *)
Definition generate_prompt (fileType topic : string) : string :=
  "
      Generate a valid, clean, and educational code example for a " +:+ fileType +:+ " file.
      Topic: " +:+ topic +:+ "
      
      Return ONLY the code block without markdown backticks.
    ".

Definition generate_error_text : string := "// Error generating code.".

(** [generateExample] (lines 44-64). *)
Definition generateExample (P : Platform) (fileType : FileType) (topic : string) : M string :=
  try_catch
    (ai <- getAIClient P ;;
     let prompt := generate_prompt (FileType_value fileType) topic in
     response <- lift (generateContent P ai gemini_model prompt) ;;
     ret (js_or_opt (response_text response) EmptyString))
    (fun error =>
       log (ErrorLog api_error_label error) ;;
       ret generate_error_text).

(** ** The service as an instance of the panel's interface *)

#[export] Instance GeminiAssistant : AssistantService := {|
  svc_state := SvcState;
  svc_world := Platform;
  svc_explain := explainConcept;
  svc_generate := generateExample
|}.

(** ** Lemmas on the monad *)

(** A [try] whose [catch] logs and returns a value never rejects. *)
Lemma catch_all_resolves {A} (c : M A) (l : Exn -> LogEntry) (a : A) s :
  exists r s', try_catch c (fun e => log (l e) ;; ret a) s = (Resolved r, s').
Proof. unfold try_catch. destruct (c s) as [[r|e] s']; eauto. Qed.

Lemma getAIClient_cached P s c : genAI s = Some c -> getAIClient P s = (Resolved c, s).
Proof. intros H. unfold getAIClient, bind, get_genAI. by rewrite H. Qed.

(** The state after a first call: the warning (if any) is logged before the
    constructor runs, and the client is stored only if it was built. *)
Lemma getAIClient_fresh P s :
  genAI s = None ->
  let apiKey := js_or_opt (process_env_API_KEY P) EmptyString in
  let warned := (console s ++ if truthy apiKey then [] else [Warn missing_key_warning])%list in
  getAIClient P s =
    match new_GoogleGenAI P apiKey with
    | Resolved c => (Resolved c, {| genAI := Some c; console := warned |})
    | Rejected e => (Rejected e, {| genAI := None; console := warned |})
    end.
Proof.
  intros H apiKey warned. subst apiKey warned.
  destruct s as [g l]; simpl in H; subst g. unfold getAIClient, bind, get_genAI; simpl.
  destruct (truthy _); simpl; destruct (new_GoogleGenAI _ _); by rewrite ?app_nil_r.
Qed.

(** ** Theorems *)

(** C5: neither [explainConcept] nor [generateExample] ever rejects: on
    every platform (any API key, any failure of the constructor or of the
    remote call) and in every service state, the promise resolves. *)
Theorem gemini_never_rejects (P : Platform) (t : FileType) (q : string) (s : SvcState) :
  (exists r s', explainConcept P t q s = (Resolved r, s')) /\
  (exists r s', generateExample P t q s = (Resolved r, s')).
Proof. split; apply catch_all_resolves. Qed.

(** The Gemini service satisfies the panel's no-reject law. *)
#[export] Instance GeminiNoReject : AssistantNoReject GeminiAssistant.
Proof. split; intros; apply catch_all_resolves. Qed.

(** Both operations have the shape [try { ai = getAIClient(); response =
    await generateContent(prompt); return f(response) } catch (e) { log;
    return err }].  Its three branches, as the computation laws of
    [try_catch] on a resolved and on a rejected body. *)
Section Request.
Variables (P : Platform) (prompt : string) (f : Response -> string) (err : string).

Definition request : M string :=
  try_catch
    (ai <- getAIClient P ;;
     response <- lift (generateContent P ai gemini_model prompt) ;;
     ret (f response))
    (fun error => log (ErrorLog api_error_label error) ;; ret err).

Lemma request_answered s ai s1 resp :
  getAIClient P s = (Resolved ai, s1) ->
  generateContent P ai gemini_model prompt = Resolved resp ->
  request s = (Resolved (f resp), s1).
Proof. intros Hc Hg. unfold request, try_catch, bind, lift, ret. by rewrite Hc, Hg. Qed.

Lemma request_call_failed s ai s1 e :
  getAIClient P s = (Resolved ai, s1) ->
  generateContent P ai gemini_model prompt = Rejected e ->
  request s = (Resolved err, snd (log (ErrorLog api_error_label e) s1)).
Proof. intros Hc Hg. unfold request, try_catch, bind, lift, ret. by rewrite Hc, Hg. Qed.

Lemma request_client_failed s e s1 :
  getAIClient P s = (Rejected e, s1) ->
  request s = (Resolved err, snd (log (ErrorLog api_error_label e) s1)).
Proof. intros Hc. unfold request, try_catch, bind. by rewrite Hc. Qed.
End Request.

(** The answered branch of each operation, through [request]. *)
Lemma explainConcept_answered P t q s ai s1 resp :
  getAIClient P s = (Resolved ai, s1) ->
  generateContent P ai gemini_model (explain_prompt (FileType_value t) q) = Resolved resp ->
  explainConcept P t q s = (Resolved (js_or_opt (response_text resp) explain_empty_fallback), s1).
Proof. apply request_answered. Qed.

Lemma generateExample_answered P t topic s ai s1 resp :
  getAIClient P s = (Resolved ai, s1) ->
  generateContent P ai gemini_model (generate_prompt (FileType_value t) topic) = Resolved resp ->
  generateExample P t topic s = (Resolved (js_or_opt (response_text resp) EmptyString), s1).
Proof. apply request_answered. Qed.

(** On a platform whose constructor never throws, a client is obtained. *)
Lemma getAIClient_resolves P s :
  (forall k, exists c, new_GoogleGenAI P k = Resolved c) ->
  exists ai s1, getAIClient P s = (Resolved ai, s1).
Proof.
  intros Hk. destruct (genAI s) as [c|] eqn:G.
  - exists c, s. by apply getAIClient_cached.
  - rewrite getAIClient_fresh by done.
    destruct (Hk (js_or_opt (process_env_API_KEY P) EmptyString)) as [c ->]. eauto.
Qed.

(** When every remote call throws [e], [generateExample] resolves with
    the placeholder comment, whether or not a client can be built. *)
Lemma generateExample_call_fails P t topic s e :
  (forall c prompt, generateContent P c gemini_model prompt = Rejected e) ->
  exists s', generateExample P t topic s = (Resolved generate_error_text, s').
Proof.
  intros Hg.
  change (generateExample P t topic s) with
    (request P (generate_prompt (FileType_value t) topic)
       (fun r => js_or_opt (response_text r) EmptyString) generate_error_text s).
  destruct (getAIClient P s) as [[ai|e'] s1] eqn:Hc.
  - erewrite request_call_failed; eauto.
  - erewrite request_client_failed; eauto.
Qed.

(** C6: [explainConcept] on each branch.  When a client is obtained (in
    state [s1]) and the remote call answers, it resolves with the
    response's text if that text is defined and non-empty, and with the
    fixed "Sorry" sentence otherwise, logging nothing; when the remote
    call throws [e], or obtaining the client throws [e], it resolves with
    the fixed error sentence after logging [e] once. *)
Theorem explainConcept_outcomes (P : Platform) (t : FileType) (q : string) (s : SvcState) :
  let prompt := explain_prompt (FileType_value t) q in
  (forall ai s1 resp, getAIClient P s = (Resolved ai, s1) ->
     generateContent P ai gemini_model prompt = Resolved resp ->
     explainConcept P t q s =
       (Resolved (match response_text resp with
                  | Some txt => if truthy txt then txt else explain_empty_fallback
                  | None => explain_empty_fallback
                  end), s1)) /\
  (forall ai s1 e, getAIClient P s = (Resolved ai, s1) ->
     generateContent P ai gemini_model prompt = Rejected e ->
     explainConcept P t q s =
       (Resolved explain_error_text, snd (log (ErrorLog api_error_label e) s1))) /\
  (forall e s1, getAIClient P s = (Rejected e, s1) ->
     explainConcept P t q s =
       (Resolved explain_error_text, snd (log (ErrorLog api_error_label e) s1))).
Proof.
  intros prompt.
  change (explainConcept P t q s) with
    (request P prompt (fun r => js_or_opt (response_text r) explain_empty_fallback)
       explain_error_text s).
  split; [|split].
  - intros ai s1 resp Hc Hg.
    rewrite (request_answered P prompt _ _ s ai s1 resp Hc Hg).
    by destruct (response_text resp).
  - intros ai s1 e Hc Hg. exact (request_call_failed P prompt _ _ s ai s1 e Hc Hg).
  - intros e s1 Hc. exact (request_client_failed P prompt _ _ s e s1 Hc).
Qed.

(** C7: [generateExample] on each branch.  When a client is obtained and
    the remote call answers, it resolves with the response's text (the
    empty string when it is undefined), logging nothing; when the remote
    call or obtaining the client throws [e], it resolves with the fixed
    placeholder comment after logging [e] once. *)
Theorem generateExample_outcomes (P : Platform) (t : FileType) (topic : string) (s : SvcState) :
  let prompt := generate_prompt (FileType_value t) topic in
  (forall ai s1 resp, getAIClient P s = (Resolved ai, s1) ->
     generateContent P ai gemini_model prompt = Resolved resp ->
     generateExample P t topic s =
       (Resolved (match response_text resp with Some txt => txt | None => EmptyString end), s1)) /\
  (forall ai s1 e, getAIClient P s = (Resolved ai, s1) ->
     generateContent P ai gemini_model prompt = Rejected e ->
     generateExample P t topic s =
       (Resolved generate_error_text, snd (log (ErrorLog api_error_label e) s1))) /\
  (forall e s1, getAIClient P s = (Rejected e, s1) ->
     generateExample P t topic s =
       (Resolved generate_error_text, snd (log (ErrorLog api_error_label e) s1))).
Proof.
  intros prompt.
  change (generateExample P t topic s) with
    (request P prompt (fun r => js_or_opt (response_text r) EmptyString)
       generate_error_text s).
  split; [|split].
  - intros ai s1 resp Hc Hg.
    rewrite (request_answered P prompt _ _ s ai s1 resp Hc Hg).
    by destruct (response_text resp) as [[|c txt]|].
  - intros ai s1 e Hc Hg. exact (request_call_failed P prompt _ _ s ai s1 e Hc Hg).
  - intros e s1 Hc. exact (request_client_failed P prompt _ _ s e s1 Hc).
Qed.

(** C8: the client is a singleton: once [getAIClient] has returned a
    client, it is stored, and every later call returns the same client
    without touching the state (no second construction, no second
    warning). *)
Theorem getAIClient_singleton (P : Platform) s c s1 :
  getAIClient P s = (Resolved c, s1) ->
  genAI s1 = Some c /\ getAIClient P s1 = (Resolved c, s1).
Proof.
  intros H. destruct (genAI s) as [c0|] eqn:G.
  - rewrite (getAIClient_cached P s c0 G) in H. injection H as -> ->.
    split; [done | by apply getAIClient_cached].
  - rewrite getAIClient_fresh in H by done.
    destruct (new_GoogleGenAI _ _); [|done]. injection H as -> <-.
    split; [done | by apply getAIClient_cached].
Qed.

(** C9: the prompts embed their inputs verbatim: the explanation prompt
    contains the user's query and the file type's name, the example
    prompt contains the topic and the file type's name. *)
Theorem prompts_embed_inputs (t : FileType) (q topic : string) :
  includes (explain_prompt (FileType_value t) q) q = true /\
  includes (explain_prompt (FileType_value t) q) (FileType_value t) = true /\
  includes (generate_prompt (FileType_value t) topic) topic = true /\
  includes (generate_prompt (FileType_value t) topic) (FileType_value t) = true.
Proof.
  unfold explain_prompt, generate_prompt. repeat split; solve_includes.
Qed.

(** C29: the missing-key warning is logged once per client: from a state
    without a client, two calls of [getAIClient] whose constructor
    succeeds return the same client and add exactly one warning to the
    console when [process.env.API_KEY] is missing or empty, and none
    otherwise. *)
Theorem missing_key_warned_once (P : Platform) (s : SvcState) (c : Client) :
  genAI s = None ->
  new_GoogleGenAI P (js_or_opt (process_env_API_KEY P) EmptyString) = Resolved c ->
  exists s1 s2, getAIClient P s = (Resolved c, s1) /\ getAIClient P s1 = (Resolved c, s2) /\
    console s2 = (console s ++
                  if truthy (js_or_opt (process_env_API_KEY P) EmptyString) then []
                  else [Warn missing_key_warning])%list.
Proof.
  intros Hnone Hc. rewrite (getAIClient_fresh P s Hnone), Hc.
  eexists _, _. split; [reflexivity|]. split; [by apply getAIClient_cached|]. done.
Qed.

(** ** Witnesses *)

(** A platform with a key whose remote call answers ["ok"]. *)
Definition answering_platform : Platform := {|
  process_env_API_KEY := Some "k";
  new_GoogleGenAI := fun k => Resolved {| client_apiKey := k |};
  generateContent := fun _ _ _ => Resolved {| response_text := Some "ok" |}
|}.

Definition fresh_state : SvcState := {| genAI := None; console := [] |}.
Definition client_state : SvcState := {| genAI := Some {| client_apiKey := "k" |}; console := [] |}.

(** A platform whose remote call throws: the network is down. *)
Definition offline_platform : Platform := {|
  process_env_API_KEY := Some "k";
  new_GoogleGenAI := fun k => Resolved {| client_apiKey := k |};
  generateContent := fun _ _ _ => Rejected "fetch failed"
|}.

Lemma explainConcept_outcomes_witness :
  explainConcept answering_platform TS "q" fresh_state = (Resolved "ok", client_state) /\
  explainConcept offline_platform TS "q" fresh_state =
    (Resolved explain_error_text, snd (log (ErrorLog api_error_label "fetch failed") client_state)).
Proof.
  split.
  - apply (proj1 (explainConcept_outcomes answering_platform TS "q" fresh_state)
             {| client_apiKey := "k" |} client_state {| response_text := Some "ok" |});
      reflexivity.
  - apply (proj1 (proj2 (explainConcept_outcomes offline_platform TS "q" fresh_state))
             {| client_apiKey := "k" |} client_state "fetch failed"); reflexivity.
Defined.

Lemma generateExample_outcomes_witness :
  generateExample answering_platform JSON "t" fresh_state = (Resolved "ok", client_state) /\
  generateExample offline_platform JSON "t" fresh_state =
    (Resolved generate_error_text, snd (log (ErrorLog api_error_label "fetch failed") client_state)).
Proof.
  split.
  - apply (proj1 (generateExample_outcomes answering_platform JSON "t" fresh_state)
             {| client_apiKey := "k" |} client_state {| response_text := Some "ok" |});
      reflexivity.
  - apply (proj1 (proj2 (generateExample_outcomes offline_platform JSON "t" fresh_state))
             {| client_apiKey := "k" |} client_state "fetch failed"); reflexivity.
Defined.

Lemma getAIClient_singleton_witness :
  getAIClient answering_platform fresh_state = (Resolved {| client_apiKey := "k" |}, client_state) /\
  (genAI client_state = Some {| client_apiKey := "k" |} /\
   getAIClient answering_platform client_state = (Resolved {| client_apiKey := "k" |}, client_state)).
Proof.
  split; [reflexivity|]. apply (getAIClient_singleton answering_platform fresh_state).
  reflexivity.
Defined.

Lemma missing_key_warned_once_witness :
  genAI fresh_state = None /\
  new_GoogleGenAI answering_platform (js_or_opt (process_env_API_KEY answering_platform) EmptyString)
    = Resolved {| client_apiKey := "k" |} /\
  (exists s1 s2, getAIClient answering_platform fresh_state = (Resolved {| client_apiKey := "k" |}, s1) /\
     getAIClient answering_platform s1 = (Resolved {| client_apiKey := "k" |}, s2) /\
     console s2 = (console fresh_state ++
                   if truthy (js_or_opt (process_env_API_KEY answering_platform) EmptyString) then []
                   else [Warn missing_key_warning])%list).
Proof.
  split; [reflexivity|]. split; [reflexivity|].
  apply (missing_key_warned_once answering_platform fresh_state {| client_apiKey := "k" |}); reflexivity.
Defined.
