(* ===== verification/Editor.v ===== *)
(** * The code display of [src/components/Editor.tsx]

    The editor has no state.  What it computes from its props: the tab's
    file name from the type (the nested conditional of line 21), and the
    numbered rows of the code (lines 30-35): [code.split('\n')], each
    piece shown next to its index plus one.  The theorems say that the
    rows show the code exactly, one row per line, numbered from 1. *)

From Stdlib Require Import String.
From stdpp Require Import base list strings.
From S2P Require Import Prelude JsString Types Constants.

Open Scope string_scope.
Open Scope list_scope.

(** [type === FileType.TS ? 'logic.ts' : type === FileType.TSX ?
    'Component.tsx' : 'data.json'] *)
Definition tab_label (type : FileType) : string :=
  if bool_decide (type = TS) then "logic.ts"
  else if bool_decide (type = TSX) then "Component.tsx"
  else "data.json".

(** [code.split('\n').map((line, i) => ... {i + 1} ... {line})] *)
Definition code_rows (code : string) : list (nat * string) :=
  imap (fun i line => (i + 1, line)) (split_on newline code).

(** What [Editor] renders (lines 15-52): the tab's name, the rows, and
    the status bar, whose left side is fixed and whose right side ends
    with the type's enum value ([{type}], line 48). *)
Record EditorView := {
  ev_tab : string;
  ev_rows : list (nat * string);
  ev_status_left : list string;
  ev_status_right : list string
}.

Definition Editor (code : string) (type : FileType) : EditorView := {|
  ev_tab := tab_label type;
  ev_rows := code_rows code;
  ev_status_left := ["master*"; "0 errors"];
  ev_status_right := ["Ln 1, Col 1"; "UTF-8"; FileType_value type]
|}.

(** The line numbers of a list of rows, counted from [k]. *)
Lemma rows_numbers_from (l : list string) k :
  map fst (imap (fun i line => (i + k, line)) l) = seq k (length l).
Proof.
  induction l as [|x l IH] in k |- *; [done|]. simpl. f_equal.
  rewrite <- (IH (S k)). f_equal. apply imap_ext. intros i y _. simpl. f_equal. lia.
Qed.

Lemma code_rows_lines (l : list string) :
  map snd (imap (fun i line => (i + 1, line)) l) = l.
Proof.
  induction l as [|x l IH] using rev_ind; [done|].
  by rewrite imap_app, map_app, IH.
Qed.

(** C23: the editor shows the code exactly: joining the rows' texts with
    line feeds gives the code back, there is one row per line (one more
    than the number of line feeds), and the rows are numbered 1, 2, ...
    in order. *)
Theorem code_rows_faithful (code : string) :
  join newline (map snd (code_rows code)) = code /\
  length (code_rows code) = S (count_sep newline code) /\
  map fst (code_rows code) = seq 1 (S (count_sep newline code)).
Proof.
  unfold code_rows. rewrite code_rows_lines, rows_numbers_from, length_imap, length_split_on.
  split; [apply join_split_on | done].
Qed.

(** C24: the tab's file name ends with the extension of the type the
    editor shows. *)
Theorem tab_label_extension (type : FileType) :
  exists stem, tab_label type = stem +:+ extension (FILE_INFO type).
Proof.
  destruct type; [exists "logic" | exists "Component" | exists "data"]; reflexivity.
Qed.


