(* ===== verification/Sidebar.v ===== *)
(** * The file-type menu of [src/components/Sidebar.tsx]

    The sidebar has no state: it renders [items] (lines 11-15), one button
    per entry, highlighted when [activeType === item.type], whose click
    calls [onSelect(item.type)] (App's [onSelect], in [App.v]).  The
    icons are components and are not modelled. *)

From Stdlib Require Import String.
From stdpp Require Import base list strings finite.
From S2P Require Import Prelude JsString Types Constants.

Open Scope string_scope.
Open Scope list_scope.

Record SidebarItem := {
  item_type : FileType;
  label : string
}.

Definition items : list SidebarItem := [
  {| item_type := TS; label := "TypeScript (.ts)" |};
  {| item_type := TSX; label := "React TypeScript (.tsx)" |};
  {| item_type := JSON; label := "JSON (.json)" |}
].

(** [const isActive = activeType === item.type] *)
Definition isActive (activeType : FileType) (item : SidebarItem) : bool :=
  bool_decide (activeType = item_type item).

(** The [className] of a button (lines 34-38): a fixed prefix and the
    branch chosen by [isActive]. *)
Definition button_class (active : bool) : string :=
  "w-full flex items-center gap-3 px-4 py-3 rounded-lg transition-all duration-200 " +:+
  (if active then "bg-blue-600/10 text-blue-400 border border-blue-600/20"
   else "text-gray-400 hover:bg-gray-800 hover:text-gray-200").

(** A rendered button: its [key], the type its [onClick] passes to
    [onSelect], its class and its label. *)
Record SidebarButton := {
  btn_key : FileType;
  btn_onClick : FileType;
  btn_class : string;
  btn_label : string
}.

(** [items.map((item) => <button ...>)] (lines 27-44). *)
Definition sidebar_buttons (activeType : FileType) : list SidebarButton :=
  map (fun item => {| btn_key := item_type item; btn_onClick := item_type item;
                      btn_class := button_class (isActive activeType item);
                      btn_label := label item |}) items.

(** The texts of the component and its buttons (lines 17-52). *)
Record SidebarView := {
  sb_badge : string;
  sb_title : string;
  sb_subtitle : string;
  sb_buttons : list SidebarButton;
  sb_footer : string
}.

Definition Sidebar (activeType : FileType) : SidebarView := {|
  sb_badge := "DE";
  sb_title := "DevExplorer";
  sb_subtitle := "File Type Guide";
  sb_buttons := sidebar_buttons activeType;
  sb_footer := "Powered by Gemini 2.5" |}.

(** The buttons drawn as active are exactly the active type's, and
    every button's click selects its own type. *)
Lemma Sidebar_active_buttons (activeType : FileType) :
  map btn_key (filter (fun b => btn_class b = button_class true) (sidebar_buttons activeType))
    = [activeType]%list /\
  Forall (fun b => btn_onClick b = btn_key b) (sidebar_buttons activeType).
Proof. split; [by destruct activeType | apply Forall_forall; intros b Hb; by apply list_elem_of_In, in_map_iff in Hb as (? & <- & _)]. Qed.

(** C25: the menu lists every file type exactly once, in the enum's
    order; for every active type exactly one button is highlighted; and
    every button's label shows its type's extension. *)
Theorem sidebar_items_complete (activeType : FileType) :
  map item_type items = enum FileType /\
  length (filter (fun it => isActive activeType it = true) items) = 1 /\
  Forall (fun it => includes (label it) (extension (FILE_INFO (item_type it))) = true) items.
Proof.
  split; [done|]. split.
  - by destruct activeType.
  - repeat constructor.
Qed.
