(* ===== verification/AssistantPanel.v ===== *)
(** * The chat panel of [src/components/AssistantPanel.tsx]

    State ([useState]): the transcript [messages], the text box [input] and
    the flag [isLoading].  Props: [activeType], and the callback
    [onUpdateCode] into App, which the generate handler's continuation
    returns as the code to set.

    Each asynchronous handler is split at its [await]: [handleSend] and
    [handleGenerateExample] are the synchronous prefixes, which update the
    state and issue a [Request] to the service (capturing [activeType] as
    the closure does), and [handleSend_settle] and
    [handleGenerateExample_settle] are the continuations, which run when
    the promise settles, with the [try]/[catch]/[finally] of the source.
    Updates go through React's functional setters ([prev => ...]), so
    the continuations act on the state current at settlement.

    The [console.error(e)] of the generate handler's [catch] writes to the
    developer console only and is not modelled. *)

From Stdlib Require Import String.
From stdpp Require Import base list strings.
From S2P Require Import Prelude JsString Types Constants Assistant.

Open Scope string_scope.
Open Scope list_scope.

(** ** Data *)

Record PanelState := {
  messages : list Message;
  input : string;
  isLoading : bool
}.

(** A call to the service whose promise has not settled yet. *)
Inductive Request :=
| ExplainReq (t : FileType) (query : string)      (** [explainConcept(activeType, userMsg)] *)
| GenerateReq (t : FileType) (topic : string).    (** [generateExample(activeType, topic)] *)

#[export] Instance Request_eq_dec : EqDecision Request.
Proof. solve_decision. Defined.

(** [useState<Message[]>([])], [useState('')], [useState(false)] *)
Definition panel_init : PanelState :=
  {| messages := []; input := EmptyString; isLoading := false |}.

(** ** The transcript reset (lines 20-26) *)

Definition greeting_text (ext : string) : string :=
  "Hello! I'm your dev assistant. Ask me anything about **" +:+ ext
  +:+ "** files or how to open them.".

Definition greeting (t : FileType) : Message :=
  {| role := model; text := greeting_text (extension (FILE_INFO t)) |}.

(** The effect with dependencies [[activeType, info.extension]]. *)
Definition clear_chat (activeType : FileType) (p : PanelState) : PanelState :=
  {| messages := [greeting activeType]; input := input p; isLoading := isLoading p |}.

(** ** The text box (lines 134-141) *)

(** [onChange={(e) => setInput(e.target.value)}] *)
Definition onChange (value : string) (p : PanelState) : PanelState :=
  {| messages := messages p; input := value; isLoading := isLoading p |}.

(** ** [handleSend] (lines 34-50) *)

(** [!input.trim() || isLoading]: the guard of the handler, which is also
    the [disabled] attribute of the send button (line 144). *)
Definition send_blocked (p : PanelState) : bool :=
  negb (truthy (trim (input p))) || isLoading p.

(** The prefix up to [await]: [None] is the early [return]. *)
Definition handleSend (activeType : FileType) (p : PanelState) : option (PanelState * Request) :=
  if send_blocked p then None
  else
    let userMsg := input p in
    Some ({| messages := messages p ++ [{| role := user; text := userMsg |}];
             input := EmptyString;
             isLoading := true |},
          ExplainReq activeType userMsg).

Definition send_error_text : string := "Error connecting to AI.".

(** The continuation: [try] appends the reply, [catch] the error text,
    [finally] clears the flag. *)
Definition handleSend_settle (r : Settled string) (p : PanelState) : PanelState :=
  let reply :=
    match r with
    | Resolved responseText => {| role := model; text := responseText |}
    | Rejected _ => {| role := model; text := send_error_text |}
    end in
  {| messages := messages p ++ [reply]; input := input p; isLoading := false |}.

(** ** [handleGenerateExample] (lines 52-63) *)

Definition example_topic : string := "A complex example showcasing key features".
Definition example_confirmation : string :=
  "I've updated the editor with a new example for you!".

(** The prefix: no guard of its own (the button's [disabled={isLoading}]
    is the only one). *)
Definition handleGenerateExample (activeType : FileType) (p : PanelState) : PanelState * Request :=
  ({| messages := messages p; input := input p; isLoading := true |},
   GenerateReq activeType example_topic).

(** The continuation; its second component is the argument of
    [onUpdateCode], when it is called. *)
Definition handleGenerateExample_settle (r : Settled string) (p : PanelState)
  : PanelState * option string :=
  match r with
  | Resolved code =>
      ({| messages := messages p ++ [{| role := model; text := example_confirmation |}];
          input := input p; isLoading := false |}, Some code)
  | Rejected _ =>
      ({| messages := messages p; input := input p; isLoading := false |}, None)
  end.

(** ** Rendering with logic *)

(** [disabled={isLoading}] of the generate button (line 88). *)
Definition generate_disabled (p : PanelState) : bool := isLoading p.

Inductive ToolIcon := Globe | TerminalIcon | MonitorIcon.

(** The icon of each program in the "How to Open" list (lines 77-79). *)
Definition tool_icon (tool : string) : ToolIcon :=
  if includes (toLowerCase tool) "browser" then Globe
  else if includes (toLowerCase tool) "terminal" then TerminalIcon
  else MonitorIcon.

(** ** The rendered panel (lines 65-154)

    The view keeps what the markup shows and what its controls do: texts,
    the icon chosen at each conditional, the classes chosen by the role of
    a message, the [disabled] attributes and the input's value and
    placeholder.  Fixed markup and the Markdown renderer are not kept. *)

(** The icons of the panel other than the tools'. *)
Inductive PanelIcon := UserIcon | BotIcon | Loader2 | Sparkles.

(** [msg.role === 'user'] *)
Definition is_user (msg : Message) : bool := bool_decide (role msg = user).

(** One message's bubble (lines 104-118): its key, the three classes the
    role selects, the avatar's icon and the text given to the renderer. *)
Record Bubble := {
  bubble_key : nat;
  row_class : string;
  avatar_class : string;
  avatar : PanelIcon;
  bubble_class : string;
  bubble_text : string
}.

Definition bubble (i : nat) (msg : Message) : Bubble := {|
  bubble_key := i;
  row_class := "flex gap-3 " +:+ (if is_user msg then "flex-row-reverse" else EmptyString);
  avatar_class := "w-8 h-8 rounded-full flex items-center justify-center flex-shrink-0 " +:+
                  (if is_user msg then "bg-blue-600" else "bg-green-600");
  avatar := if is_user msg then UserIcon else BotIcon;
  bubble_class := "p-3 rounded-lg max-w-[85%] text-sm " +:+
                  (if is_user msg then "bg-blue-600/20 text-blue-100" else "bg-gray-800 text-gray-200");
  bubble_text := text msg |}.

Record PanelView := {
  pv_title : string;                          (** [info.fullName] *)
  pv_description : string;                    (** [info.description] *)
  pv_tools : list (nat * ToolIcon * string);  (** the "How to Open" list *)
  pv_generate_disabled : bool;
  pv_generate_icon : PanelIcon;
  pv_bubbles : list Bubble;
  pv_typing : bool;                           (** the indicator of lines 120-129 *)
  pv_input_value : string;
  pv_placeholder : string;
  pv_send_disabled : bool
}.

(** The JSX of the component, from its props and state. *)
Definition AssistantPanel (activeType : FileType) (p : PanelState) : PanelView :=
  let info := FILE_INFO activeType in {|
  pv_title := fullName info;
  pv_description := description info;
  pv_tools := imap (fun idx tool => (idx, tool_icon tool, tool)) (howToOpen info);
  pv_generate_disabled := generate_disabled p;
  pv_generate_icon := if isLoading p then Loader2 else Sparkles;
  pv_bubbles := imap bubble (messages p);
  pv_typing := isLoading p;
  pv_input_value := input p;
  pv_placeholder := "Ask about " +:+ FileType_value activeType +:+ "...";
  pv_send_disabled := send_blocked p |}.

(** ** Theorems *)

(** The greeting names the extension it is built from. *)
Lemma greeting_text_includes (ext : string) : includes (greeting_text ext) ext = true.
Proof. unfold greeting_text. solve_includes. Qed.

#[export] Hint Resolve greeting_text_includes : devx.

Lemma send_blocked_iff p :
  send_blocked p = true <-> all_ws (input p) = true \/ isLoading p = true.
Proof.
  unfold send_blocked. rewrite truthy_trim, negb_involutive, orb_true_iff. done.
Qed.

(** C10: [handleSend] is a no-op (the early [return]: no state change,
    no request) exactly when the input is empty or whitespace only, or a
    request is already loading. *)
Theorem handleSend_noop_iff (t : FileType) (p : PanelState) :
  handleSend t p = None <-> all_ws (input p) = true \/ isLoading p = true.
Proof.
  rewrite <- send_blocked_iff. unfold handleSend.
  destruct (send_blocked p); split; congruence.
Qed.

(** C11: a send that is not blocked asks the service to explain the
    active type with the input verbatim, clears the input and sets the
    loading flag; when the promise settles, the transcript is the one at
    settlement followed by exactly the user's message and then the reply
    (the resolved text, or the fixed error text on rejection), and the
    flag is cleared. *)
Theorem handleSend_appends_two (t : FileType) (p p1 : PanelState) (req : Request) (r : Settled string) :
  handleSend t p = Some (p1, req) ->
  req = ExplainReq t (input p) /\ input p1 = EmptyString /\ isLoading p1 = true /\
  messages (handleSend_settle r p1) =
    messages p ++ [{| role := user; text := input p |};
                   {| role := model; text := match r with
                                             | Resolved s => s
                                             | Rejected _ => send_error_text
                                             end |}] /\
  isLoading (handleSend_settle r p1) = false.
Proof.
  unfold handleSend. destruct (send_blocked p); [done|].
  intros H. injection H as <- <-. simpl.
  repeat split. rewrite <- app_assoc. by destruct r.
Qed.

(** C12: when the example request settles, a resolution passes the code
    to [onUpdateCode] and appends exactly one confirmation message; a
    rejection changes neither the code nor the transcript.  Either way
    the loading flag is cleared. *)
Theorem handleGenerateExample_settle_cases (r : Settled string) (p : PanelState) :
  isLoading (fst (handleGenerateExample_settle r p)) = false /\
  match r with
  | Resolved code =>
      snd (handleGenerateExample_settle r p) = Some code /\
      messages (fst (handleGenerateExample_settle r p)) =
        messages p ++ [{| role := model; text := example_confirmation |}]
  | Rejected _ =>
      snd (handleGenerateExample_settle r p) = None /\
      messages (fst (handleGenerateExample_settle r p)) = messages p
  end.
Proof. by destruct r. Qed.

(** C30: in the "How to Open" list of every catalog entry, the globe icon
    marks exactly the program whose lower-cased name mentions a browser
    (the JSON entry "Any Web Browser (Chrome, Firefox)"), no program gets
    the terminal icon, and every other program gets the monitor icon. *)
Theorem tool_icons_of_catalog (t : FileType) :
  map tool_icon (howToOpen (FILE_INFO t)) =
  match t with
  | JSON => [MonitorIcon; Globe; MonitorIcon; MonitorIcon]
  | _ => [MonitorIcon; MonitorIcon; MonitorIcon; MonitorIcon]
  end.
Proof. destruct t; vm_compute; reflexivity. Qed.

(** ** Witnesses *)

Definition panel_hi : PanelState :=
  {| messages := [greeting TS]; input := "hi"; isLoading := false |}.
Definition panel_hi_sent : PanelState :=
  {| messages := [greeting TS; {| role := user; text := "hi" |}]; input := EmptyString; isLoading := true |}.

Lemma handleSend_appends_two_witness :
  handleSend TS panel_hi = Some (panel_hi_sent, ExplainReq TS "hi") /\
  (ExplainReq TS "hi" = ExplainReq TS (input panel_hi) /\ input panel_hi_sent = EmptyString /\
   isLoading panel_hi_sent = true /\
   messages (handleSend_settle (Resolved "yo") panel_hi_sent) =
     messages panel_hi ++ [{| role := user; text := input panel_hi |};
                           {| role := model; text := match Resolved "yo" with
                                                     | Resolved s => s
                                                     | Rejected _ => send_error_text
                                                     end |}] /\
   isLoading (handleSend_settle (Resolved "yo") panel_hi_sent) = false).
Proof.
  split; [reflexivity|].
  apply (handleSend_appends_two TS panel_hi panel_hi_sent (ExplainReq TS "hi") (Resolved "yo")).
  reflexivity.
Defined.
