(* ===== verification/App.v ===== *)
(** * The root component of [src/App.tsx], and the whole program

    [AppState] is App's state ([activeType], [currentCode],
    [isSidebarOpen]).  [Sys] composes it with the panel's state, the list
    of requests whose promise has not settled yet, and the service's own
    state.  [step] is one event: a user action on the rendered page, or
    the settlement of the [i]-th outstanding promise in a world [w] of
    the service (the network's answers), in any order, so that every
    interleaving of user actions and replies is a list of events.

    React's semantics, as far as the code depends on it: a setter that
    stores the value already there does not re-render, and an effect runs
    after a commit only when one of its dependencies changed ([Object.is]);
    on mount every effect runs once ([init]).  Both effects of the
    program depend on [activeType] alone ([info.extension] is a function
    of it), so [commit] runs them exactly when the type changed.

    The section is generic in the service ([AssistantService]); the
    theorems at the end instantiate it with the Gemini service.  Each
    service call is run at settlement: its synchronous prefix
    ([getAIClient]) only touches the service's own state, which no
    component reads, so the order is not observable in [app] or
    [panel]. *)

From Stdlib Require Import String.
From stdpp Require Import base list strings.
From S2P Require Import Prelude JsString Types Constants Assistant AssistantPanel.

Open Scope string_scope.
Open Scope list_scope.

Record AppState := {
  activeType : FileType;
  currentCode : string;
  isSidebarOpen : bool
}.

(** [useState(FileType.TS)], [useState(FILE_INFO[FileType.TS].defaultCode)],
    [useState(true)] *)
Definition app_init : AppState :=
  {| activeType := TS; currentCode := defaultCode (FILE_INFO TS); isSidebarOpen := true |}.

(** [setCurrentCode(code)], the panel's [onUpdateCode]. *)
Definition setCurrentCode (code : string) (a : AppState) : AppState :=
  {| activeType := activeType a; currentCode := code; isSidebarOpen := isSidebarOpen a |}.

(** The effect of lines 14-17: reset the code to the type's default. *)
Definition reset_code_effect (a : AppState) : AppState :=
  setCurrentCode (defaultCode (FILE_INFO (activeType a))) a.

(** The sidebar's [onSelect] (lines 36-39): [setActiveType(type)] and, on
    a viewport narrower than 1024 pixels, [setIsSidebarOpen(false)]. *)
Definition onSelect (t : FileType) (innerWidth : nat) (a : AppState) : AppState :=
  {| activeType := t; currentCode := currentCode a;
     isSidebarOpen := if Nat.ltb innerWidth 1024 then false else isSidebarOpen a |}.

(** [toggleSidebar] (line 19), the mobile menu button. *)
Definition toggleSidebar (a : AppState) : AppState :=
  {| activeType := activeType a; currentCode := currentCode a; isSidebarOpen := negb (isSidebarOpen a) |}.

(** The overlay's [onClick] (line 73); the overlay is rendered only while
    the sidebar is open (line 70). *)
Definition closeSidebar (a : AppState) : AppState :=
  {| activeType := activeType a; currentCode := currentCode a; isSidebarOpen := false |}.

Section System.
Context {S : AssistantService}.

Record Sys := {
  app : AppState;
  panel : PanelState;
  pending : list Request;
  svc : svc_state
}.

Inductive Event :=
| SelectType (t : FileType) (innerWidth : nat)
| ToggleSidebar
| ClickOverlay
| TypeInput (value : string)
| KeyDown (key : string)
| ClickSend
| ClickGenerate
| Settle (i : nat) (w : svc_world).

Definition with_app (a : AppState) (s : Sys) : Sys :=
  {| app := a; panel := panel s; pending := pending s; svc := svc s |}.
Definition with_panel (p : PanelState) (s : Sys) : Sys :=
  {| app := app s; panel := p; pending := pending s; svc := svc s |}.

(** Both effects, in the order React runs them (child first). *)
Definition run_effects (s : Sys) : Sys :=
  {| app := reset_code_effect (app s);
     panel := clear_chat (activeType (app s)) (panel s);
     pending := pending s; svc := svc s |}.

(** After the setters of an event, with [before] the type at the
    previous commit: effects run only if [activeType] changed. *)
Definition commit (before : FileType) (s : Sys) : Sys :=
  if bool_decide (before = activeType (app s)) then s else run_effects s.

(** The first render and the mount effects. *)
Definition init (svc0 : svc_state) : Sys :=
  run_effects {| app := app_init; panel := panel_init; pending := []; svc := svc0 |}.

(** [handleSend] from the page: the prefix, and the promise it awaits. *)
Definition send (s : Sys) : Sys :=
  match handleSend (activeType (app s)) (panel s) with
  | None => s
  | Some (p, req) => {| app := app s; panel := p; pending := pending s ++ [req]; svc := svc s |}
  end.

Definition generate (s : Sys) : Sys :=
  let (p, req) := handleGenerateExample (activeType (app s)) (panel s) in
  {| app := app s; panel := p; pending := pending s ++ [req]; svc := svc s |}.

(** The [i]-th promise settles: the service runs in world [w] and the
    handler's continuation runs on the current state. *)
Definition settle (i : nat) (req : Request) (w : svc_world) (s : Sys) : Sys :=
  let rest := delete i (pending s) in
  match req with
  | ExplainReq t q =>
      let (r, st) := svc_explain w t q (svc s) in
      {| app := app s; panel := handleSend_settle r (panel s); pending := rest; svc := st |}
  | GenerateReq t topic =>
      let (r, st) := svc_generate w t topic (svc s) in
      let (p, code) := handleGenerateExample_settle r (panel s) in
      {| app := match code with Some c => setCurrentCode c (app s) | None => app s end;
         panel := p; pending := rest; svc := st |}
  end.

Definition step (e : Event) (s : Sys) : Sys :=
  match e with
  | SelectType t innerWidth =>
      commit (activeType (app s)) (with_app (onSelect t innerWidth (app s)) s)
  | ToggleSidebar => with_app (toggleSidebar (app s)) s
  | ClickOverlay => if isSidebarOpen (app s) then with_app (closeSidebar (app s)) s else s
  | TypeInput v => with_panel (onChange v (panel s)) s
  | KeyDown k => if String.eqb k "Enter" then send s else s
  | ClickSend => if send_blocked (panel s) then s else send s
  | ClickGenerate => if generate_disabled (panel s) then s else generate s
  | Settle i w =>
      match pending s !! i with
      | Some req => settle i req w s
      | None => s
      end
  end.

(** A run: the events in order. *)
Fixpoint run (es : list Event) (s : Sys) : Sys :=
  match es with
  | [] => s
  | e :: es' => run es' (step e s)
  end.

Inductive reachable (svc0 : svc_state) : Sys -> Prop :=
| reach_init : reachable svc0 (init svc0)
| reach_step e s : reachable svc0 s -> reachable svc0 (step e s).

(** The invariant: the loading flag is set exactly when a promise is
    outstanding, at most one is, and the transcript starts with the
    greeting of the active type. *)
Definition wf (s : Sys) : Prop :=
  isLoading (panel s) = negb (bool_decide (pending s = [])) /\
  length (pending s) <= 1 /\
  head (messages (panel s)) = Some (greeting (activeType (app s))).

#[export] Instance wf_dec s : Decision (wf s).
Proof. unfold wf. apply _. Defined.

(** *** Preservation of the invariant, event by event *)

(** Close the three conjuncts of [wf] after an event. *)
Local Ltac wf_close :=
  repeat split; simpl; try done; try lia; eauto with devx.

Lemma wf_init svc0 : wf (init svc0).
Proof. repeat split; simpl; lia. Qed.

Lemma wf_idle s : wf s -> isLoading (panel s) = false -> pending s = [].
Proof.
  intros [Hl _] Hf. rewrite Hf in Hl.
  destruct (pending s); [done | by rewrite bool_decide_false in Hl].
Qed.

Lemma send_wf s : wf s -> wf (send s).
Proof.
  intros Hwf. unfold send, handleSend.
  destruct (send_blocked (panel s)) eqn:B; [done|].
  apply orb_false_iff in B as [_ B].
  pose proof (wf_idle s Hwf B) as Hp. destruct Hwf as (_ & _ & Hh).
  rewrite ?Hp; wf_close.
Qed.

Lemma generate_wf s : wf s -> isLoading (panel s) = false -> wf (generate s).
Proof.
  intros Hwf B. pose proof (wf_idle s Hwf B) as Hp. destruct Hwf as (_ & _ & Hh).
  unfold generate; simpl. rewrite Hp. wf_close.
Qed.

Lemma settle_wf i req w s : wf s -> pending s !! i = Some req -> wf (settle i req w s).
Proof.
  intros (Hl & Hlen & Hh) Hi.
  destruct (lookup_short_list _ _ _ Hlen Hi) as [Hp ->].
  unfold settle. rewrite Hp. destruct req as [t q|t q].
  - destruct (svc_explain w t q (svc s)) as [r st].
    wf_close.
  - destruct (svc_generate w t q (svc s)) as [r st].
    destruct r; wf_close.
Qed.

Lemma select_wf t width s : wf s -> wf (step (SelectType t width) s).
Proof.
  intros (Hl & Hlen & Hh). simpl. unfold commit.
  destruct (decide (activeType (app s) = t)) as [<-|E].
  - rewrite bool_decide_true by done. wf_close.
  - rewrite bool_decide_false by done. wf_close.
Qed.

Lemma step_wf e s : wf s -> wf (step e s).
Proof.
  intros Hwf. destruct e as [t width| | |v|k| | |i w].
  - by apply select_wf.
  - done.
  - simpl. destruct (isSidebarOpen (app s)); [|done].
    destruct Hwf as (? & ? & ?). by repeat split.
  - destruct Hwf as (? & ? & ?). by repeat split.
  - simpl. destruct (String.eqb k "Enter"); [by apply send_wf | done].
  - simpl. destruct (send_blocked (panel s)); [done | by apply send_wf].
  - simpl. unfold generate_disabled.
    destruct (isLoading (panel s)) eqn:B; [done | by apply generate_wf].
  - simpl. destruct (pending s !! i) eqn:Hi; [by apply settle_wf | done].
Qed.

(** *** Theorems *)

(** C1: in every state reachable from the mounted page by any sequence
    of user actions and settlements, in any interleaving, the loading
    flag is set exactly when a request is outstanding, at most one
    request is outstanding, and the transcript starts with the greeting
    of the active file type. *)
Theorem reachable_wf (svc0 : svc_state) (s : Sys) :
  reachable svc0 s -> wf s.
Proof. induction 1; [apply wf_init | by apply step_wf]. Qed.

Lemma reachable_inv svc0 s : reachable svc0 s -> wf s.
Proof. induction 1; [apply wf_init | by apply step_wf]. Qed.

(** C26: the invariant of the specification's data model: in every
    reachable state the transcript's first entry is a model greeting
    that mentions the active file type's extension. *)
Theorem reachable_greeting_mentions_extension (svc0 : svc_state) (s : Sys) :
  reachable svc0 s ->
  exists g rest, messages (panel s) = g :: rest /\ role g = model /\
    includes (text g) (extension (FILE_INFO (activeType (app s)))) = true.
Proof.
  intros R. destruct (reachable_inv svc0 s R) as (_ & _ & Hh).
  destruct (messages (panel s)) as [|g rest]; [done|]. injection Hh as ->.
  exists (greeting (activeType (app s))), rest. split; [done|]. split; [done|].
  apply greeting_text_includes.
Qed.

(** The transcript only grows, or is reset to the greeting alone. *)
Lemma step_transcript e s :
  messages (panel s) `prefix_of` messages (panel (step e s)) \/
  (activeType (app (step e s)) <> activeType (app s) /\
   messages (panel (step e s)) = [greeting (activeType (app (step e s)))]).
Proof.
  destruct e as [t width| | |v|k| | |i w]; simpl.
  - unfold commit. destruct (decide (activeType (app s) = t)) as [<-|E].
    + rewrite bool_decide_true by done. by left.
    + rewrite bool_decide_false by done. right. by split.
  - by left.
  - left. by destruct (isSidebarOpen (app s)).
  - by left.
  - left. unfold send, handleSend.
    destruct (String.eqb k "Enter"), (send_blocked (panel s)); simpl; try done.
    by apply prefix_app_r.
  - left. unfold send, handleSend. destruct (send_blocked (panel s)); simpl; [done|].
    by apply prefix_app_r.
  - left. unfold generate_disabled. by destruct (isLoading (panel s)).
  - left. destruct (pending s !! i) as [[t q|t q]|]; [unfold settle| unfold settle|done].
    + destruct (svc_explain w t q (svc s)). by apply prefix_app_r.
    + destruct (svc_generate w t q (svc s)) as [[c|e] st]; simpl; [by apply prefix_app_r | done].
Qed.

(** C27: the transcript is append-only: an event that leaves the active
    file type unchanged never edits or removes an entry, it only appends
    (a code update from a generated example included). *)
Theorem transcript_append_only (e : Event) (s : Sys) :
  activeType (app (step e s)) = activeType (app s) ->
  messages (panel s) `prefix_of` messages (panel (step e s)).
Proof. intros H. by destruct (step_transcript e s) as [|[? _]]. Qed.

(** C28: the page never stays loading: from every reachable state, in
    every world of the service, at most one settlement brings it back to
    idle, with no request outstanding. *)
Theorem reachable_returns_idle (svc0 : svc_state) (w : svc_world) (s : Sys) :
  reachable svc0 s ->
  exists es, length es <= 1 /\
    isLoading (panel (run es s)) = false /\ pending (run es s) = [].
Proof.
  intros R. destruct (reachable_inv svc0 s R) as (Hl & Hlen & _).
  destruct (pending s) as [|req [|? ?]] eqn:Hp; simpl in Hlen; [| | lia].
  - exists []. simpl. rewrite Hl, Hp. by split; [lia|].
  - exists [Settle 0 w]. split; [simpl; lia|]. simpl. rewrite Hp. simpl.
    unfold settle. rewrite Hp.
    destruct req as [t q|t q]; [destruct (svc_explain w t q (svc s)) | destruct (svc_generate w t q (svc s)) as [[c|e] st]]; done.
Qed.

(** C2: selecting a file type other than the active one makes it
    active, resets the displayed code to its default sample and the
    transcript to its greeting alone, leaves the loading flag and the
    outstanding requests as they were, and closes the sidebar exactly
    on a viewport narrower than 1024 pixels. *)
Theorem select_new_type_resets (t : FileType) (width : nat) (s : Sys) :
  activeType (app s) <> t ->
  let s' := step (SelectType t width) s in
  activeType (app s') = t /\
  currentCode (app s') = defaultCode (FILE_INFO t) /\
  messages (panel s') = [greeting t] /\
  isLoading (panel s') = isLoading (panel s) /\ pending s' = pending s /\
  isSidebarOpen (app s') = (if Nat.ltb width 1024 then false else isSidebarOpen (app s)).
Proof. intros Hne. simpl. unfold commit. by rewrite bool_decide_false. Qed.

(** C3: selecting the file type that is already active resets nothing:
    the displayed code (a generated example, say) and the transcript
    stay as they are, because the effects depend on [activeType] and it
    did not change. *)
Theorem select_same_type_keeps (width : nat) (s : Sys) :
  let s' := step (SelectType (activeType (app s)) width) s in
  currentCode (app s') = currentCode (app s) /\ messages (panel s') = messages (panel s).
Proof. simpl. unfold commit. by rewrite bool_decide_true. Qed.

(** C13: while a request is loading, pressing Enter, clicking send and
    clicking "Generate New Example" change nothing: no second request
    is issued. *)
Theorem busy_blocks_requests (s : Sys) :
  isLoading (panel s) = true ->
  step (KeyDown "Enter") s = s /\ step ClickSend s = s /\ step ClickGenerate s = s.
Proof.
  intros B. simpl. unfold send, handleSend, generate_disabled, send_blocked.
  by rewrite B, orb_true_r.
Qed.

(** C14: with an input that is empty or whitespace only, pressing Enter
    or clicking send changes nothing. *)
Theorem blank_send_noop (s : Sys) :
  all_ws (input (panel s)) = true ->
  step (KeyDown "Enter") s = s /\ step ClickSend s = s.
Proof.
  intros W. assert (B : send_blocked (panel s) = true) by (apply send_blocked_iff; by left).
  simpl. unfold send, handleSend. by rewrite B.
Qed.

Section NoReject.
Context {NR : AssistantNoReject S}.

(** C15: with a service that never rejects, the settlement of an
    outstanding explanation request appends exactly one model message
    carrying the service's resolved text (never the panel's own error
    text from its [catch]), clears the loading flag and leaves no
    request outstanding. *)
Theorem settle_explain_appends_reply (t : FileType) (q : string) (w : svc_world) (s : Sys) :
  pending s = [ExplainReq t q] ->
  exists r st, svc_explain w t q (svc s) = (Resolved r, st) /\
    let s' := step (Settle 0 w) s in
    messages (panel s') = messages (panel s) ++ [{| role := model; text := r |}] /\
    isLoading (panel s') = false /\ pending s' = [] /\ app s' = app s.
Proof.
  intros Hp. destruct (svc_explain_resolves w t q (svc s)) as (r & st & Hr).
  exists r, st. split; [done|]. simpl. rewrite Hp. simpl. unfold settle.
  rewrite Hp, Hr. done.
Qed.

(** C16: with a service that never rejects, the settlement of an
    outstanding example request always replaces the displayed code
    with the service's resolved text (its failure placeholder
    included) and appends the confirmation message; the [catch] that
    would keep the code is never taken. *)
Theorem settle_generate_replaces_code (t : FileType) (topic : string) (w : svc_world) (s : Sys) :
  pending s = [GenerateReq t topic] ->
  exists code st, svc_generate w t topic (svc s) = (Resolved code, st) /\
    let s' := step (Settle 0 w) s in
    currentCode (app s') = code /\ activeType (app s') = activeType (app s) /\
    messages (panel s') = messages (panel s) ++ [{| role := model; text := example_confirmation |}] /\
    isLoading (panel s') = false /\ pending s' = [].
Proof.
  intros Hp. destruct (svc_generate_resolves w t topic (svc s)) as (code & st & Hr).
  exists code, st. split; [done|]. simpl. rewrite Hp. simpl. unfold settle.
  rewrite Hp, Hr. done.
Qed.
End NoReject.
End System.

Arguments Sys : clear implicits.
Arguments Event : clear implicits.

(** ** Witnesses

    A service that resolves every request with the text its world
    supplies, for running the system on concrete inputs. *)

Definition echo_service : AssistantService := {|
  svc_state := unit;
  svc_world := string;
  svc_explain := fun w _ _ st => (Resolved w, st);
  svc_generate := fun w _ _ st => (Resolved w, st)
|}.

Lemma echo_no_reject : AssistantNoReject echo_service.
Proof. split; intros w t q st; by exists w, st. Qed.

Definition echo_page : Sys echo_service := init (S := echo_service) tt.

Lemma reachable_wf_witness : reachable (S := echo_service) tt echo_page /\ wf echo_page.
Proof. split; [constructor | apply (reachable_wf (S := echo_service) tt echo_page); constructor]. Defined.

Lemma select_new_type_resets_witness :
  activeType (app echo_page) <> JSON /\
  (let s' := step (SelectType JSON 800) echo_page in
   activeType (app s') = JSON /\
   currentCode (app s') = defaultCode (FILE_INFO JSON) /\
   messages (panel s') = [greeting JSON] /\
   isLoading (panel s') = isLoading (panel echo_page) /\ pending s' = pending echo_page /\
   isSidebarOpen (app s') = (if Nat.ltb 800 1024 then false else isSidebarOpen (app echo_page))).
Proof.
  split; [discriminate|]. apply (select_new_type_resets JSON 800 echo_page). discriminate.
Defined.

Definition echo_busy : Sys echo_service := step ClickGenerate echo_page.

Lemma busy_blocks_requests_witness :
  isLoading (panel echo_busy) = true /\
  (step (KeyDown "Enter") echo_busy = echo_busy /\ step ClickSend echo_busy = echo_busy /\
   step ClickGenerate echo_busy = echo_busy).
Proof. split; [reflexivity|]. apply busy_blocks_requests. reflexivity. Defined.

Definition echo_blank : Sys echo_service := step (TypeInput "  ") echo_page.

Lemma blank_send_noop_witness :
  all_ws (input (panel echo_blank)) = true /\
  (step (KeyDown "Enter") echo_blank = echo_blank /\ step ClickSend echo_blank = echo_blank).
Proof. split; [reflexivity|]. apply blank_send_noop. reflexivity. Defined.

Definition echo_asked : Sys echo_service := run [TypeInput "hi"; KeyDown "Enter"] echo_page.

Lemma settle_explain_appends_reply_witness :
  pending echo_asked = [ExplainReq TS "hi"] /\
  (exists r st, svc_explain (AssistantService := echo_service) "yo" TS "hi" (svc echo_asked) = (Resolved r, st) /\
     let s' := step (Settle (S := echo_service) 0 "yo") echo_asked in
     messages (panel s') = messages (panel echo_asked) ++ [{| role := model; text := r |}] /\
     isLoading (panel s') = false /\ pending s' = [] /\ app s' = app echo_asked).
Proof.
  split; [reflexivity|].
  apply (settle_explain_appends_reply (NR := echo_no_reject) TS "hi" "yo" echo_asked). reflexivity.
Defined.

Lemma settle_generate_replaces_code_witness :
  pending echo_busy = [GenerateReq TS example_topic] /\
  (exists code st, svc_generate (AssistantService := echo_service) "x" TS example_topic (svc echo_busy) = (Resolved code, st) /\
     let s' := step (Settle (S := echo_service) 0 "x") echo_busy in
     currentCode (app s') = code /\ activeType (app s') = activeType (app echo_busy) /\
     messages (panel s') = messages (panel echo_busy) ++ [{| role := model; text := example_confirmation |}] /\
     isLoading (panel s') = false /\ pending s' = []).
Proof.
  split; [reflexivity|].
  apply (settle_generate_replaces_code (NR := echo_no_reject) TS example_topic "x" echo_busy). reflexivity.
Defined.

Lemma reachable_greeting_mentions_extension_witness :
  reachable (S := echo_service) tt echo_page /\
  (exists g rest, messages (panel echo_page) = g :: rest /\ role g = model /\
     includes (text g) (extension (FILE_INFO (activeType (app echo_page)))) = true).
Proof.
  split; [constructor|].
  apply (reachable_greeting_mentions_extension (S := echo_service) tt echo_page). constructor.
Defined.

Lemma transcript_append_only_witness :
  activeType (app (step (Settle (S := echo_service) 0 "x") echo_busy)) = activeType (app echo_busy) /\
  messages (panel echo_busy) `prefix_of` messages (panel (step (Settle (S := echo_service) 0 "x") echo_busy)).
Proof.
  split; [reflexivity|]. apply (transcript_append_only (Settle (S := echo_service) 0 "x") echo_busy).
  reflexivity.
Defined.

Lemma reachable_returns_idle_witness :
  reachable (S := echo_service) tt echo_busy /\
  (exists es, length es <= 1 /\
     isLoading (panel (run es echo_busy)) = false /\ pending (run es echo_busy) = []).
Proof.
  split; [repeat constructor|].
  apply (reachable_returns_idle (S := echo_service) tt "x" echo_busy). repeat constructor.
Defined.
