(* ===== verification/Page.v ===== *)
(** * The rendered page of [src/App.tsx] (lines 21-78)

    [Page s] is what the root component renders in the system state [s]
    of [App.v]: the mobile menu button's icon, the class that slides the
    sidebar in or out, the sidebar's buttons ([Sidebar.Sidebar]), the
    header's extension, the editor's view ([Editor.Editor]), the panel's
    view ([AssistantPanel.AssistantPanel]) and whether the overlay is
    mounted.  The theorems of this file show that every reachable state
    renders a consistent page, and connect the rendered controls with the
    events of [App.step]: the send button's [disabled] attribute against
    the Enter key and the click, a sidebar button against the page it
    leads to, and a question and its answer against the bubbles drawn. *)

From Stdlib Require Import String.
From stdpp Require Import base list strings.
From S2P Require Import Prelude JsString Types Constants Assistant Editor Sidebar AssistantPanel App.

Open Scope string_scope.
Open Scope list_scope.

(** The icon of the mobile menu button (line 28). *)
Inductive MenuIcon := XIcon | MenuBars.

(** The template literal of lines 32-35, its line breaks and indentation
    included. *)
Definition sidebar_class (isSidebarOpen : bool) : string :=
  String newline ("        fixed inset-y-0 left-0 z-40 transform transition-transform duration-300 ease-in-out lg:relative lg:translate-x-0" +:+
  String newline ("        " +:+ (if isSidebarOpen then "translate-x-0" else "-translate-x-full") +:+
  String newline "      ")).

Record PageView := {
  pg_menu_icon : MenuIcon;
  pg_sidebar_class : string;
  pg_sidebar : SidebarView;
  pg_header_extension : string;   (** [FILE_INFO[activeType].extension], line 50 *)
  pg_editor : EditorView;
  pg_panel : PanelView;
  pg_overlay : bool               (** [isSidebarOpen && <div .../>], line 70 *)
}.

Section Page.
Context {S : AssistantService}.

(** The JSX of [App], with the children's views. *)
Definition Page (s : Sys S) : PageView :=
  let a := app s in {|
  pg_menu_icon := if isSidebarOpen a then XIcon else MenuBars;
  pg_sidebar_class := sidebar_class (isSidebarOpen a);
  pg_sidebar := Sidebar (activeType a);
  pg_header_extension := extension (FILE_INFO (activeType a));
  pg_editor := Editor (currentCode a) (activeType a);
  pg_panel := AssistantPanel (activeType a) (panel s);
  pg_overlay := isSidebarOpen a |}.

(** C34: every reachable state renders a consistent page: the editor's
    tab and the first bubble of the transcript (a bot bubble, the
    greeting) name the extension of the header; exactly the active
    type's sidebar button is highlighted; the menu icon, the overlay and
    the sidebar's slide class agree on whether the sidebar is open; and
    the typing indicator, the generate button's spinner and its
    [disabled] attribute are shown exactly while a request is
    outstanding, the send button being disabled then too. *)
Theorem page_consistent (svc0 : svc_state) (s : Sys S) :
  reachable svc0 s ->
  let v := Page s in
  (exists stem, ev_tab (pg_editor v) = stem +:+ pg_header_extension v) /\
  (exists b, head (pv_bubbles (pg_panel v)) = Some b /\ avatar b = BotIcon /\
     includes (bubble_text b) (pg_header_extension v) = true) /\
  map btn_key (filter (fun b => btn_class b = button_class true) (sb_buttons (pg_sidebar v)))
    = [activeType (app s)] /\
  (pg_menu_icon v = XIcon <-> pg_overlay v = true) /\
  includes (pg_sidebar_class v) "-translate-x-full" = negb (pg_overlay v) /\
  pv_typing (pg_panel v) = negb (bool_decide (pending s = [])) /\
  pv_generate_disabled (pg_panel v) = pv_typing (pg_panel v) /\
  (pv_generate_icon (pg_panel v) = Loader2 <-> pending s <> []) /\
  (pending s <> [] -> pv_send_disabled (pg_panel v) = true).
Proof.
  intros R v.
  destruct (reachable_inv svc0 s R) as (Hl & _ & Hh). subst v.
  refine (conj _ (conj _ (conj _ (conj _ (conj _ (conj _ (conj _ (conj _ _)))))))).
  - simpl. destruct (activeType (app s)); [exists "logic" | exists "Component" | exists "data"]; reflexivity.
  - simpl. destruct (messages (panel s)) as [|g rest]; simplify_eq/=.
    eexists; split; [done|]. split; [done|]. apply greeting_text_includes.
  - apply Sidebar_active_buttons.
  - simpl. by destruct (isSidebarOpen (app s)).
  - simpl. by destruct (isSidebarOpen (app s)).
  - exact Hl.
  - done.
  - simpl. rewrite Hl. case_bool_decide; naive_solver.
  - intros Hp. apply send_blocked_iff. right. simpl in *. rewrite Hl. by case_bool_decide.
Qed.

(** Selecting a type makes it the active one, whether or not the effects
    run. *)
Lemma select_active (t : FileType) (width : nat) (s : Sys S) :
  activeType (app (step (SelectType t width) s)) = t.
Proof. simpl. unfold commit. by case_bool_decide. Qed.

(** C17: the send controls follow the rendered [disabled] attribute,
    whichever way they are used: when the page shows the send button
    disabled, neither the Enter key in the text box nor a click changes
    anything; when it shows it enabled, the Enter key does what the click
    does: the typed text is appended as the user's message, the box is
    cleared, and the next page shows the typing indicator. *)
Theorem send_controls_follow_disabled (s : Sys S) :
  (pv_send_disabled (pg_panel (Page s)) = true ->
     step (KeyDown "Enter") s = s /\ step ClickSend s = s) /\
  (pv_send_disabled (pg_panel (Page s)) = false ->
     step (KeyDown "Enter") s = step ClickSend s /\
     messages (panel (step ClickSend s))
       = messages (panel s) ++ [{| role := user; text := input (panel s) |}] /\
     input (panel (step ClickSend s)) = EmptyString /\
     pv_typing (pg_panel (Page (step ClickSend s))) = true).
Proof.
  simpl. unfold send, handleSend.
  split; intros Hb; rewrite Hb; [done|]. by repeat split.
Qed.

(** C18: a click on any button of the rendered sidebar selects its type,
    and the next page highlights exactly that button, and shows that
    type's extension in the header and its file name on the editor's
    tab. *)
Theorem sidebar_click_highlights (s : Sys S) (b : SidebarButton) (width : nat) :
  In b (sb_buttons (pg_sidebar (Page s))) ->
  let v := Page (step (SelectType (btn_onClick b) width) s) in
  map btn_key (filter (fun b' => btn_class b' = button_class true) (sb_buttons (pg_sidebar v)))
    = [btn_key b] /\
  pg_header_extension v = extension (FILE_INFO (btn_key b)) /\
  ev_tab (pg_editor v) = tab_label (btn_key b).
Proof.
  intros Hin v. destruct (Sidebar_active_buttons (activeType (app s))) as [_ Hall].
  rewrite Forall_forall in Hall.
  assert (E : activeType (app (step (SelectType (btn_onClick b) width) s)) = btn_key b).
  { rewrite select_active. apply Hall, list_elem_of_In, Hin. }
  subst v. cbn [Page pg_sidebar pg_header_extension pg_editor sb_buttons Sidebar ev_tab Editor].
  rewrite E. split; [exact (proj1 (Sidebar_active_buttons (btn_key b))) | done].
Qed.

(** C33: one question and its answer, as the page renders them: from a
    reachable idle page with a non-blank text box, the Enter key shows
    the typing indicator; when the service resolves with [r], the
    settlement hides it again, and the transcript shows exactly two new
    bubbles after the old ones, the question drawn as the user's and the
    answer [r] as the assistant's. *)
Theorem send_cycle_renders (svc0 : svc_state) (s : Sys S) (w : svc_world) (r : string)
    (st : svc_state) :
  reachable svc0 s -> isLoading (panel s) = false -> all_ws (input (panel s)) = false ->
  svc_explain w (activeType (app s)) (input (panel s)) (svc s) = (Resolved r, st) ->
  let s1 := step (KeyDown "Enter") s in
  let s2 := step (Settle 0 w) s1 in
  pv_typing (pg_panel (Page s1)) = true /\ pv_typing (pg_panel (Page s2)) = false /\
  pv_bubbles (pg_panel (Page s2)) = pv_bubbles (pg_panel (Page s)) ++
    [bubble (length (messages (panel s))) {| role := user; text := input (panel s) |};
     bubble (length (messages (panel s)) + 1) {| role := model; text := r |}].
Proof.
  intros R Hl Hw Hr s1 s2. pose proof (wf_idle s (reachable_inv svc0 s R) Hl) as Hp.
  assert (Hb : send_blocked (panel s) = false) by (unfold send_blocked; by rewrite truthy_trim, Hw, Hl).
  subst s1 s2. simpl. unfold send, handleSend. rewrite Hb. simpl. rewrite Hp. simpl.
  unfold settle. simpl. rewrite Hr. simpl.
  split; [done|]. split; [done|].
  rewrite <- app_assoc, imap_app. simpl. by rewrite Nat.add_0_r.
Qed.

End Page.

(** After a click on "Generate New Example" the page shows the spinner:
    the request is outstanding. *)
Lemma page_consistent_witness :
  reachable (S := echo_service) tt echo_busy /\
  pending echo_busy <> []%list /\ pv_generate_icon (pg_panel (Page echo_busy)) = Loader2.
Proof.
  assert (R : reachable (S := echo_service) tt echo_busy)
    by exact (reach_step (S := echo_service) tt ClickGenerate _ (reach_init (S := echo_service) tt)).
  assert (Hp : pending echo_busy <> []%list) by (vm_compute; discriminate).
  split; [exact R | split; [exact Hp|]].
  destruct (page_consistent (S := echo_service) tt echo_busy R) as (_ & _ & _ & _ & _ & _ & _ & [_ Hi] & _).
  exact (Hi Hp).
Defined.

(** The mounted page with "hi" typed in the text box. *)
Definition echo_hi : Sys echo_service := step (TypeInput "hi") echo_page.

Lemma send_controls_follow_disabled_witness :
  (step (KeyDown "Enter") echo_page = echo_page /\ step ClickSend echo_page = echo_page) /\
  step (KeyDown "Enter") echo_hi = step ClickSend echo_hi.
Proof.
  split.
  - apply (proj1 (send_controls_follow_disabled echo_page)). reflexivity.
  - apply (proj2 (send_controls_follow_disabled echo_hi)). reflexivity.
Defined.

(** The JSON button of the mounted page. *)
Definition json_button : SidebarButton := {|
  btn_key := JSON; btn_onClick := JSON; btn_class := button_class false;
  btn_label := "JSON (.json)" |}.

Lemma sidebar_click_highlights_witness :
  map btn_key (filter (fun b' => btn_class b' = button_class true)
    (sb_buttons (pg_sidebar (Page (step (SelectType (btn_onClick json_button) 800) echo_page)))))
    = [JSON].
Proof.
  apply (sidebar_click_highlights echo_page json_button 800).
  right; right; left. reflexivity.
Defined.

Lemma send_cycle_renders_witness :
  pv_typing (pg_panel (Page (step (KeyDown "Enter") echo_hi))) = true.
Proof.
  apply (send_cycle_renders (S := echo_service) tt echo_hi "yo" "yo" tt).
  - exact (reach_step (S := echo_service) tt (TypeInput "hi") _ (reach_init (S := echo_service) tt)).
  - reflexivity.
  - reflexivity.
  - reflexivity.
Defined.
