(* ===== verification/Refinement.v ===== *)
(** * The controller against its specification

    Section 4.3 of the specification describes the view-state controller
    as atomic transitions: [selectFileType], [toggleSidebar],
    [sendMessage] (append the user's text and the assistant's reply) and
    [requestExample] (replace the code, append a confirmation).  [Spec]
    is that abstract state and [spec_step] those transitions; a call to
    the service is still the service's own operation, so the abstract
    state carries the service's state.

    The implementation of an abstract operation is the list of events
    the page goes through ([impl]): an action and, for the two requests,
    the settlement of the promise right after it.  [abs] forgets what the
    specification does not see (the text box, the loading flag, the
    outstanding requests).  The refinement theorem: from an idle state,
    every sequence of abstract operations is implemented by the
    concatenation of their event lists, as long as no operation selects
    the type that is already active (the one divergence, see
    [App.select_same_type_keeps]).  Runs in which a promise settles after
    a type switch are not of this form; [Scenarios.v] shows what they
    do. *)

From Stdlib Require Import String.
From stdpp Require Import base list strings.
From S2P Require Import Prelude JsString Types Constants Assistant AssistantPanel App.

Open Scope string_scope.
Open Scope list_scope.

Section Refinement.
Context {S : AssistantService} {NR : AssistantNoReject S}.

Record Spec := {
  sp_type : FileType;
  sp_code : string;
  sp_sidebar : bool;
  sp_transcript : list Message;
  sp_svc : svc_state
}.

Inductive Op :=
| OpSelect (t : FileType) (narrow : bool)
| OpToggle
| OpSend (txt : string) (w : svc_world)
| OpExample (w : svc_world).

(** The text a settled promise carries (a service under [NR] only
    resolves). *)
Definition outcome_text (r : Settled string) : string :=
  match r with Resolved x => x | Rejected e => e end.

Definition spec_step (op : Op) (a : Spec) : Spec :=
  match op with
  | OpSelect t narrow =>
      {| sp_type := t; sp_code := defaultCode (FILE_INFO t);
         sp_sidebar := if narrow then false else sp_sidebar a;
         sp_transcript := [greeting t]; sp_svc := sp_svc a |}
  | OpToggle =>
      {| sp_type := sp_type a; sp_code := sp_code a; sp_sidebar := negb (sp_sidebar a);
         sp_transcript := sp_transcript a; sp_svc := sp_svc a |}
  | OpSend txt w =>
      if all_ws txt then a
      else
        let (r, st) := svc_explain w (sp_type a) txt (sp_svc a) in
        {| sp_type := sp_type a; sp_code := sp_code a; sp_sidebar := sp_sidebar a;
           sp_transcript := sp_transcript a ++ [{| role := user; text := txt |};
                                                {| role := model; text := outcome_text r |}];
           sp_svc := st |}
  | OpExample w =>
      let (r, st) := svc_generate w (sp_type a) example_topic (sp_svc a) in
      {| sp_type := sp_type a; sp_code := outcome_text r; sp_sidebar := sp_sidebar a;
         sp_transcript := sp_transcript a ++ [{| role := model; text := example_confirmation |}];
         sp_svc := st |}
  end.

Fixpoint spec_run (ops : list Op) (a : Spec) : Spec :=
  match ops with
  | [] => a
  | op :: ops' => spec_run ops' (spec_step op a)
  end.

(** The operations the refinement covers: no selection of the active
    type. *)
Fixpoint ops_ok (ops : list Op) (a : Spec) : bool :=
  match ops with
  | [] => true
  | op :: ops' =>
      match op with
      | OpSelect t _ => negb (bool_decide (t = sp_type a))
      | _ => true
      end && ops_ok ops' (spec_step op a)
  end.

Definition abs (s : Sys S) : Spec :=
  {| sp_type := activeType (app s); sp_code := currentCode (app s);
     sp_sidebar := isSidebarOpen (app s); sp_transcript := messages (panel s);
     sp_svc := svc s |}.

(** The events of one abstract operation. *)
Definition impl (op : Op) : list (Event S) :=
  match op with
  | OpSelect t narrow => [SelectType t (if narrow then 800 else 1280)]
  | OpToggle => [ToggleSidebar]
  | OpSend txt w => [TypeInput txt; KeyDown "Enter"; Settle 0 w]
  | OpExample w => [ClickGenerate; Settle 0 w]
  end.

Definition idle (s : Sys S) : Prop := isLoading (panel s) = false /\ pending s = [].

Lemma run_app (l1 l2 : list (Event S)) s : run (l1 ++ l2) s = run l2 (run l1 s).
Proof. induction l1 as [|e l1 IH] in s |- *; [done | apply IH]. Qed.

(** One abstract operation, from an idle state: the implementation
    reaches an idle state whose abstraction is the abstract step. *)
Lemma impl_refines_step op s :
  idle s ->
  match op with OpSelect t _ => t <> activeType (app s) | _ => True end ->
  abs (run (impl op) s) = spec_step op (abs s) /\ idle (run (impl op) s).
Proof.
  intros [Hl Hp] Hop. destruct op as [t narrow| |txt w|w]; simpl in Hop |- *.
  - unfold commit. rewrite bool_decide_false by (simpl; congruence).
    by destruct narrow; repeat split.
  - done.
  - unfold send, handleSend, send_blocked. simpl. rewrite Hl, orb_false_r, truthy_trim.
    destruct (all_ws txt); simpl; rewrite ?Hp; [done|].
    unfold settle. simpl.
    destruct (svc_explain_resolves w (activeType (app s)) txt (svc s)) as (r & st & ->).
    unfold abs, idle, handleSend_settle. simpl. rewrite <- app_assoc. done.
  - unfold generate_disabled, generate. rewrite Hl. simpl. rewrite Hp. simpl.
    unfold settle. simpl.
    destruct (svc_generate_resolves w (activeType (app s)) example_topic (svc s)) as (r & st & ->).
    done.
Qed.

(** C31: refinement of the specification's controller: from an idle
    state, every sequence of abstract operations (select a type other
    than the active one, toggle the sidebar, send a message and receive
    the reply, request an example and receive it) is implemented by the
    page's events, one operation after the other: the concrete run ends
    idle, in a state whose abstraction is the abstract run's result. *)
Theorem controller_refines_spec (ops : list Op) (s : Sys S) :
  idle s -> ops_ok ops (abs s) = true ->
  abs (run (flat_map impl ops) s) = spec_run ops (abs s) /\ idle (run (flat_map impl ops) s).
Proof.
  induction ops as [|op ops IH] in s |- *; intros Hidle Hok; [done|].
  simpl in Hok. apply andb_true_iff in Hok as [Hop Hok].
  assert (Hc : match op with OpSelect t _ => t <> activeType (app s) | _ => True end).
  { destruct op; simpl in *; try done. by apply negb_true_iff, bool_decide_eq_false in Hop. }
  destruct (impl_refines_step op s Hidle Hc) as [Habs Hidle'].
  simpl. rewrite run_app, <- Habs. apply IH; [done|]. by rewrite Habs.
Qed.
(** ** Interleaved runs: a forward simulation

    Between a request and its settlement the user may type, toggle the
    sidebar or press the blocked buttons.  [view] is what the
    specification sees of such a state: while an explanation is
    outstanding the user's message is already in the transcript but the
    abstract [sendMessage] has not happened yet, so it is left out.
    [sim] is the invariant that relates the two machines; [event_ok]
    excludes the type selections the specification does not describe
    (while a request is outstanding: the findings of [Scenarios.v]; of
    the active type: [App.select_same_type_keeps]). *)

Definition view (s : Sys S) : Spec :=
  match pending s with
  | [ExplainReq _ _] =>
      {| sp_type := activeType (app s); sp_code := currentCode (app s);
         sp_sidebar := isSidebarOpen (app s);
         sp_transcript := removelast (messages (panel s)); sp_svc := svc s |}
  | _ => abs s
  end.

(** The outstanding request, if any, was issued from the active type,
    and an outstanding explanation's query is not blank and is the last
    message. *)
Definition pending_ok (s : Sys S) : Prop :=
  match pending s with
  | [] => True
  | [ExplainReq t q] =>
      t = activeType (app s) /\ all_ws q = false /\
      exists m, messages (panel s) = m ++ [{| role := user; text := q |}]
  | [GenerateReq t topic] => t = activeType (app s) /\ topic = example_topic
  | _ => False
  end.

Definition sim (s : Sys S) : Prop := wf s /\ pending_ok s.

Definition event_ok (e : Event S) (s : Sys S) : bool :=
  match e with
  | SelectType t _ => bool_decide (pending s = []) && negb (bool_decide (t = activeType (app s)))
  | _ => true
  end.

Fixpoint events_ok (es : list (Event S)) (s : Sys S) : bool :=
  match es with
  | [] => true
  | e :: es' => event_ok e s && events_ok es' (step e s)
  end.

Lemma spec_run_app ops1 ops2 a : spec_run (ops1 ++ ops2) a = spec_run ops2 (spec_run ops1 a).
Proof. induction ops1 as [|op ops1 IH] in a |- *; [done | apply IH]. Qed.

Lemma ops_ok_app ops1 ops2 a :
  ops_ok (ops1 ++ ops2) a = ops_ok ops1 a && ops_ok ops2 (spec_run ops1 a).
Proof.
  induction ops1 as [|op ops1 IH] in a |- *; [done|]. simpl.
  rewrite IH. by rewrite andb_assoc.
Qed.

Lemma view_idle s : pending s = [] -> view s = abs s.
Proof. unfold view. by intros ->. Qed.

Lemma idle_of_wf s : wf s -> isLoading (panel s) = false -> idle s.
Proof. intros Hwf Hl. split; [done | by apply wf_idle]. Qed.

(** The concrete step from [s] to [s'] is matched by the abstract
    operations [ops] (none or one). *)
Definition matched (ops : list Op) (s s' : Sys S) : Prop :=
  length ops <= 1 /\ ops_ok ops (view s) = true /\
  view s' = spec_run ops (view s) /\ sim s'.

Lemma matched_intro ops s s' :
  length ops <= 1 -> ops_ok ops (view s) = true -> view s' = spec_run ops (view s) ->
  wf s' -> pending_ok s' -> matched ops s s'.
Proof. unfold matched, sim. tauto. Qed.

(** An event that changes neither App, the transcript, the loading
    flag, the outstanding requests nor the service is matched by no
    operation. *)
Lemma matched_stutter s s' :
  sim s -> app s' = app s -> messages (panel s') = messages (panel s) ->
  isLoading (panel s') = isLoading (panel s) -> pending s' = pending s -> svc s' = svc s ->
  matched [] s s'.
Proof.
  intros [Hwf Hp] Ha Hm Hi Hq Hs.
  apply matched_intro; [simpl; lia | done | | |];
    unfold wf, pending_ok, view, abs in *; rewrite ?Ha, ?Hm, ?Hi, ?Hq, ?Hs; done.
Qed.

Lemma sim_send s : sim s -> matched [] s (send s).
Proof.
  intros Hsim. pose proof (send_wf s (proj1 Hsim)) as Hwf'. revert Hwf'.
  unfold send, handleSend.
  destruct (send_blocked (panel s)) eqn:B; intros Hwf'; [by apply matched_stutter|].
  apply orb_false_iff in B as [Bt Bl].
  pose proof (wf_idle s (proj1 Hsim) Bl) as Hp.
  apply matched_intro; [simpl; lia | done | | done |].
  - unfold view, abs. simpl. rewrite Hp. simpl. by rewrite removelast_last.
  - unfold pending_ok. simpl. rewrite Hp. simpl. split; [done|]. split.
    + by rewrite truthy_trim, negb_involutive in Bt.
    + by eexists.
Qed.

Lemma sim_generate s : sim s -> isLoading (panel s) = false -> matched [] s (generate s).
Proof.
  intros [Hwf _] Bl. pose proof (wf_idle s Hwf Bl) as Hp.
  apply matched_intro; [simpl; lia | done | | by apply generate_wf |].
  - unfold view, abs, generate. simpl. by rewrite Hp.
  - unfold pending_ok, generate. simpl. by rewrite Hp.
Qed.

Lemma sim_toggle s : sim s -> matched [OpToggle] s (step ToggleSidebar s).
Proof.
  intros [Hwf Hp]. apply matched_intro; [simpl; lia | done | | by apply (step_wf ToggleSidebar) | done].
  unfold view, abs. simpl. by destruct (pending s) as [|[] []].
Qed.

Lemma sim_overlay s :
  sim s -> matched (if isSidebarOpen (app s) then [OpToggle] else []) s (step ClickOverlay s).
Proof.
  intros Hsim. pose proof (step_wf ClickOverlay s (proj1 Hsim)) as Hwf'. revert Hwf'. simpl.
  destruct (isSidebarOpen (app s)) eqn:O; intros Hwf'; [|by apply matched_stutter].
  destruct Hsim as [Hwf Hp]. apply matched_intro; [simpl; lia | done | | done | done].
  unfold view, abs. simpl. rewrite O. by destruct (pending s) as [|[] []].
Qed.

Lemma sim_select t width s :
  sim s -> pending s = [] -> t <> activeType (app s) ->
  matched [OpSelect t (Nat.ltb width 1024)] s (step (SelectType t width) s).
Proof.
  intros [Hwf _] Hp Hne. pose proof (step_wf (SelectType t width) s Hwf) as Hwf'.
  simpl in *. unfold commit in *. rewrite bool_decide_false in * by (simpl; congruence).
  apply matched_intro; [simpl; lia | | | done |].
  - rewrite view_idle by done. simpl. rewrite andb_true_r.
    by apply negb_true_iff, bool_decide_eq_false.
  - rewrite !view_idle by done. unfold abs. simpl. by destruct (Nat.ltb width 1024).
  - unfold pending_ok. simpl. by rewrite Hp.
Qed.

Lemma sim_settle i req w s :
  sim s -> pending s !! i = Some req -> exists op, matched [op] s (settle i req w s).
Proof.
  intros [Hwf Hp] Hi. pose proof (settle_wf i req w s Hwf Hi) as Hwf'.
  destruct Hwf as (Hl & Hlen & Hh).
  destruct (lookup_short_list _ _ _ Hlen Hi) as [Hq ->].
  unfold pending_ok in Hp. rewrite Hq in Hp. unfold settle in *. rewrite Hq in *. simpl in *.
  destruct req as [t q|t topic].
  - destruct Hp as (-> & Hq_ws & m & Hm). exists (OpSend q w).
    destruct (svc_explain_resolves w (activeType (app s)) q (svc s)) as (r & st & Hr).
    rewrite Hr in *. apply matched_intro; [simpl; lia | done | | done | done].
    unfold view, abs. simpl. rewrite Hq, Hm, Hq_ws, removelast_last. simpl. rewrite Hr.
    by rewrite <- app_assoc.
  - destruct Hp as (-> & ->). exists (OpExample w).
    destruct (svc_generate_resolves w (activeType (app s)) example_topic (svc s)) as (r & st & Hr).
    rewrite Hr in *. apply matched_intro; [simpl; lia | done | | done | done].
    unfold view, abs. simpl. rewrite Hq. simpl. by rewrite Hr.
Qed.
Lemma matched_refl s : sim s -> matched [] s s.
Proof. intros H. by apply matched_stutter. Qed.

(** Every covered event is matched by at most one abstract operation. *)
Lemma sim_step e s : sim s -> event_ok e s = true -> exists ops, matched ops s (step e s).
Proof.
  intros Hsim Hok. destruct e as [t width| | |v|k| | |i w].
  - simpl in Hok. apply andb_true_iff in Hok as [Hp Ht].
    apply bool_decide_eq_true in Hp. apply negb_true_iff, bool_decide_eq_false in Ht.
    eexists. by apply sim_select.
  - eexists. by apply sim_toggle.
  - eexists. by apply sim_overlay.
  - exists []. by apply matched_stutter.
  - simpl. destruct (String.eqb k "Enter"); eexists; [by apply sim_send | by apply matched_refl].
  - simpl. destruct (send_blocked (panel s)); eexists; [by apply matched_refl | by apply sim_send].
  - simpl. unfold generate_disabled. destruct (isLoading (panel s)) eqn:B;
      eexists; [by apply matched_refl | by apply sim_generate].
  - simpl. destruct (pending s !! i) eqn:Hi; [by destruct (sim_settle i r w s Hsim Hi) as [op ?]; eexists|].
    eexists. by apply matched_refl.
Qed.

Lemma runs_simulated es s :
  sim s -> events_ok es s = true ->
  exists ops, length ops <= length es /\ ops_ok ops (view s) = true /\
    view (run es s) = spec_run ops (view s) /\ sim (run es s).
Proof.
  induction es as [|e es IH] in s |- *; intros Hsim Hok.
  - exists []. simpl. split; [lia|]. by split.
  - simpl in Hok. apply andb_true_iff in Hok as [He Hes].
    destruct (sim_step e s Hsim He) as (ops1 & Hlen1 & Hok1 & Hv1 & Hsim1).
    destruct (IH (step e s) Hsim1 Hes) as (ops2 & Hlen2 & Hok2 & Hv2 & Hsim2).
    exists (ops1 ++ ops2). simpl. rewrite length_app, ops_ok_app, spec_run_app, <- Hv1, Hok1.
    split; [lia|]. split; [by rewrite Hok2|]. by split.
Qed.

Lemma sim_init svc0 : sim (init svc0).
Proof. split; [apply wf_init | done]. Qed.

(** C32: refinement of the specification's controller by every covered
    run of the page, interleavings included: for every list of events
    from the mounted page in which a type is selected only while no
    request is outstanding and never the active one (typing, sidebar
    clicks and the blocked buttons may come between a request and its
    reply), there is a run of the specification's atomic operations, no
    longer than the list, whose result is what the specification sees
    of the page's state; when nothing is outstanding at the end, that is
    the whole of App's state, the transcript and the service's state. *)
Theorem page_refines_spec (svc0 : svc_state) (es : list (Event S)) :
  events_ok es (init svc0) = true ->
  exists ops, length ops <= length es /\ ops_ok ops (abs (init svc0)) = true /\
    view (run es (init svc0)) = spec_run ops (abs (init svc0)) /\
    (pending (run es (init svc0)) = [] -> abs (run es (init svc0)) = spec_run ops (abs (init svc0))).
Proof.
  intros Hok. destruct (runs_simulated es (init svc0) (sim_init svc0) Hok) as (ops & Hl & Ho & Hv & _).
  rewrite (view_idle (init svc0)) in Ho, Hv by reflexivity.
  exists ops. split; [done|]. split; [done|]. split; [done|].
  intros Hp. by rewrite <- (view_idle _ Hp).
Qed.
End Refinement.

(** ** Witness *)

Definition refinement_ops : list (@Op echo_service) :=
  [OpSend (S := echo_service) "hi" "yo"; OpSelect JSON true; OpExample (S := echo_service) "x"].

Lemma controller_refines_spec_witness :
  idle echo_page /\ ops_ok refinement_ops (abs echo_page) = true /\
  (abs (run (flat_map impl refinement_ops) echo_page) = spec_run refinement_ops (abs echo_page) /\
   idle (run (flat_map impl refinement_ops) echo_page)).
Proof.
  split; [split; reflexivity|]. split; [reflexivity|].
  apply (controller_refines_spec (NR := echo_no_reject) refinement_ops echo_page);
    [split; reflexivity | reflexivity].
Defined.

(** A run in which the sidebar is toggled and the user types while the
    explanation is outstanding. *)
Definition interleaved_run : list (Event echo_service) :=
  [TypeInput "hi"; KeyDown "Enter"; ToggleSidebar; TypeInput "more";
   Settle (S := echo_service) 0 "yo"; SelectType JSON 800].

Lemma page_refines_spec_witness :
  events_ok interleaved_run (init (S := echo_service) tt) = true /\
  (exists ops, length ops <= length interleaved_run /\ ops_ok ops (abs (init (S := echo_service) tt)) = true /\
     view (run interleaved_run (init (S := echo_service) tt)) = spec_run ops (abs (init (S := echo_service) tt)) /\
     (pending (run interleaved_run (init (S := echo_service) tt)) = [] ->
      abs (run interleaved_run (init (S := echo_service) tt)) = spec_run ops (abs (init (S := echo_service) tt)))).
Proof.
  split; [reflexivity|].
  apply (page_refines_spec (NR := echo_no_reject) tt interleaved_run). reflexivity.
Defined.
