(* ===== verification/Scenarios.v ===== *)
(** * Requests that settle after the page moved on

    The handlers of [src/components/AssistantPanel.tsx] await the service
    and then update the state through functional setters
    ([setMessages(prev => [...prev, reply])], [onUpdateCode(code)]),
    which act on the state current at settlement, not on the state at
    the time of the request.  The theorems of this file state, for every
    state and every service, what a settlement does after the user
    switched to another file type, and, for the Gemini service, what a
    failed request and an empty answer do to the transcript and the
    editor.  They are the general
    form of the findings listed in PROJECT.json. *)

From Stdlib Require Import String.
From stdpp Require Import base list strings.
From S2P Require Import Prelude JsString Types Constants Assistant GeminiService AssistantPanel App.

Open Scope string_scope.
Open Scope list_scope.

Section Interleavings.
Context {S : AssistantService}.

(** The interleaving studied here: the user selects [t'] (on a viewport
    [width] wide), then the [i]-th outstanding promise settles in world
    [w]. *)
Definition switch_then_settle (t' : FileType) (width : nat) (i : nat) (w : svc_world)
    (s : Sys S) : Sys S :=
  step (Settle i w) (step (SelectType t' width) s).

(** Selecting another type runs both effects on the selected state. *)
Lemma step_select_other (t : FileType) (width : nat) (s : Sys S) :
  t <> activeType (app s) ->
  step (SelectType t width) s = run_effects (with_app (onSelect t width (app s)) s).
Proof. intros Hne. simpl. unfold commit. by rewrite bool_decide_false. Qed.

(** C19: a reply that settles after a type switch lands in the new
    type's transcript: for every outstanding explanation request about
    type [t], if the user selects another type [t'] before it settles,
    the transcript becomes the greeting of [t'] followed by the answer
    to the question about [t], the question itself being gone. *)
Theorem stale_reply_after_switch (s : Sys S) (i : nat) (t : FileType) (q : string)
    (t' : FileType) (width : nat) (w : svc_world) (r : string) (st : svc_state) :
  pending s !! i = Some (ExplainReq t q) ->
  t' <> activeType (app s) ->
  svc_explain w t q (svc s) = (Resolved r, st) ->
  let s2 := switch_then_settle t' width i w s in
  activeType (app s2) = t' /\
  messages (panel s2) = [greeting t'; {| role := model; text := r |}].
Proof.
  intros Hi Hne Hr. unfold switch_then_settle. rewrite step_select_other by done.
  simpl. rewrite Hi. unfold settle. simpl. by rewrite Hr.
Qed.

(** C20: an example that settles after a type switch replaces the new
    type's code: for every outstanding example request for type [t], if
    the user selects another type [t'] before it settles, the editor
    shows, under [t'], the code generated for [t], and the transcript of
    [t'] announces it. *)
Theorem stale_example_after_switch (s : Sys S) (i : nat) (t : FileType) (topic : string)
    (t' : FileType) (width : nat) (w : svc_world) (code : string) (st : svc_state) :
  pending s !! i = Some (GenerateReq t topic) ->
  t' <> activeType (app s) ->
  svc_generate w t topic (svc s) = (Resolved code, st) ->
  let s2 := switch_then_settle t' width i w s in
  activeType (app s2) = t' /\ currentCode (app s2) = code /\
  messages (panel s2) = [greeting t'; {| role := model; text := example_confirmation |}].
Proof.
  intros Hi Hne Hr. unfold switch_then_settle. rewrite step_select_other by done.
  simpl. rewrite Hi. unfold settle. simpl. by rewrite Hr.
Qed.

End Interleavings.

(** Platforms of the Gemini service: the remote call always throws [e];
    the client can be built and the remote call answers with the text
    [txt], undefined or empty. *)
Definition network_down (P : Platform) (e : Exn) : Prop :=
  forall c prompt, generateContent P c gemini_model prompt = Rejected e.

Definition answers_without_text (P : Platform) (txt : option string) : Prop :=
  (forall k, exists c, new_GoogleGenAI P k = Resolved c) /\
  (forall c prompt, generateContent P c gemini_model prompt = Resolved {| response_text := txt |}) /\
  truthy (js_or_opt txt EmptyString) = false.

(** C21: with the Gemini service, a failed example request overwrites
    the editor: in every state with an outstanding example request, on
    a platform whose remote call throws, the settlement replaces the
    displayed code with the placeholder comment and announces it as a
    new example. *)
Theorem failed_example_overwrites_code (s : Sys GeminiAssistant) (i : nat) (t : FileType)
    (topic : string) (P : Platform) (e : Exn) :
  pending s !! i = Some (GenerateReq t topic) ->
  network_down P e ->
  let s' := step (Settle i P) s in
  currentCode (app s') = generate_error_text /\
  messages (panel s') = messages (panel s) ++ [{| role := model; text := example_confirmation |}].
Proof.
  intros Hi Hg. destruct (generateExample_call_fails P t topic (svc s) e Hg) as [st Hr].
  simpl. rewrite Hi. unfold settle. simpl. by rewrite Hr.
Qed.

(** C22: the fallbacks of an empty answer, at the page: with the Gemini
    service on a platform whose client can be built and whose remote
    call answers with an undefined or empty text, the settlement of an
    explanation request appends the fixed "Sorry" sentence to the
    transcript, and the settlement of an example request empties the
    editor. *)
Theorem empty_reply_fallbacks (s : Sys GeminiAssistant) (i : nat) (P : Platform)
    (txt : option string) :
  answers_without_text P txt ->
  (forall t q, pending s !! i = Some (ExplainReq t q) ->
     messages (panel (step (Settle i P) s))
       = messages (panel s) ++ [{| role := model; text := explain_empty_fallback |}]) /\
  (forall t topic, pending s !! i = Some (GenerateReq t topic) ->
     currentCode (app (step (Settle i P) s)) = EmptyString).
Proof.
  intros (Hk & Hg & Ht). destruct (getAIClient_resolves P (svc s) Hk) as (ai & s1 & Hc).
  split; intros t x Hi; simpl; rewrite Hi; unfold settle; simpl.
  - rewrite (explainConcept_answered P t x (svc s) ai s1 _ Hc (Hg _ _)).
    by destruct txt as [[|c y]|].
  - rewrite (generateExample_answered P t x (svc s) ai s1 _ Hc (Hg _ _)).
    by destruct txt as [[|c y]|].
Qed.

(** ** Witnesses *)

(** A question outstanding on TS, and an example request outstanding. *)
Definition echo_question : Sys echo_service :=
  run [TypeInput "hi"; KeyDown "Enter"] (init (S := echo_service) tt).
Definition echo_example : Sys echo_service :=
  run [ClickGenerate] (init (S := echo_service) tt).

Lemma stale_reply_after_switch_witness :
  activeType (app (switch_then_settle (S := echo_service) JSON 1280 0 "yo" echo_question)) = JSON /\
  messages (panel (switch_then_settle (S := echo_service) JSON 1280 0 "yo" echo_question))
    = [greeting JSON; {| role := model; text := "yo" |}].
Proof.
  apply (stale_reply_after_switch (S := echo_service) echo_question 0 TS "hi" JSON 1280 "yo" "yo" tt);
    [reflexivity | discriminate | reflexivity].
Defined.

Lemma stale_example_after_switch_witness :
  activeType (app (switch_then_settle (S := echo_service) TSX 800 0 "x = 1" echo_example)) = TSX /\
  currentCode (app (switch_then_settle (S := echo_service) TSX 800 0 "x = 1" echo_example)) = "x = 1" /\
  messages (panel (switch_then_settle (S := echo_service) TSX 800 0 "x = 1" echo_example))
    = [greeting TSX; {| role := model; text := example_confirmation |}].
Proof.
  apply (stale_example_after_switch (S := echo_service) echo_example 0 TS example_topic TSX 800
           "x = 1" "x = 1" tt); [reflexivity | discriminate | reflexivity].
Defined.

(** The page mounted with a fresh service, after a click on the generate
    button. *)
Definition gemini_example : Sys GeminiAssistant :=
  run [ClickGenerate] (init (S := GeminiAssistant) {| genAI := None; console := [] |}).

Lemma failed_example_overwrites_code_witness :
  currentCode (app (step (Settle 0 offline_platform) gemini_example)) = generate_error_text /\
  messages (panel (step (Settle 0 offline_platform) gemini_example))
    = messages (panel gemini_example) ++ [{| role := model; text := example_confirmation |}].
Proof.
  apply (failed_example_overwrites_code gemini_example 0 TS example_topic offline_platform
           "fetch failed"); [reflexivity | intros ? ?; reflexivity].
Defined.

(** A platform whose remote call answers without a text. *)
Definition silent_platform : Platform := {|
  process_env_API_KEY := Some "k";
  new_GoogleGenAI := fun k => Resolved {| client_apiKey := k |};
  generateContent := fun _ _ _ => Resolved {| response_text := None |}
|}.

Definition gemini_question : Sys GeminiAssistant :=
  run [TypeInput "hi"; KeyDown "Enter"] (init (S := GeminiAssistant) {| genAI := None; console := [] |}).

Lemma empty_reply_fallbacks_witness :
  messages (panel (step (Settle 0 silent_platform) gemini_question))
    = messages (panel gemini_question) ++ [{| role := model; text := explain_empty_fallback |}].
Proof.
  apply (proj1 (empty_reply_fallbacks gemini_question 0 silent_platform None
                  (conj (fun k => ex_intro _ {| client_apiKey := k |} eq_refl)
                        (conj (fun _ _ => eq_refl) eq_refl))) TS "hi").
  reflexivity.
Defined.
